(** * Payment webhook processor: idempotent ingestion and deferred processing

    A shallow embedding of [models.py] and [main.py].  The three FastAPI
    handlers ([receive_webhook], [get_transaction], [process_transaction]) are
    written in a small state-and-exception monad over a [World] that holds the
    [transactions] table, the wall clock, the queue of background tasks and the
    log.  The Supabase client behind [get_supabase_client] is an external
    collaborator; its three operations are modelled under "The Transaction
    Store" below. *)

From Stdlib Require Import ZArith Lia.
From Stdlib Require Import Floats.SpecFloat.
From Stdlib Require Import Ascii.
From stdpp Require Import base option list strings numbers.

(** ** Data model *)

(** A Python [float] is an IEEE 754 binary64 value: zeros, finite numbers,
    the two infinities and NaN. *)
Abbreviation float := spec_float.

(** [datetime.now(timezone.utc).isoformat()]: a timestamp, kept as the clock
    reading it renders. *)
Abbreviation Timestamp := Z.

(** [class WebhookRequest(BaseModel)] *)
Module WebhookRequest.
Record t := {
  transaction_id : string;
  source_account : string;
  destination_account : string;
  amount : float;
  currency : string;
}.
End WebhookRequest.

(** [class TransactionResponse(BaseModel)] *)
Module TransactionResponse.
Record t := {
  transaction_id : string;
  source_account : string;
  destination_account : string;
  amount : float;
  currency : string;
  status : string;
  created_at : Timestamp;
  processed_at : option Timestamp;
}.
End TransactionResponse.

(** A row of the [transactions] table; also the [transaction_record] dict
    that [receive_webhook] builds, inserts and hands to the background task. *)
Module Transaction.
Record t := {
  transaction_id : string;
  source_account : string;
  destination_account : string;
  amount : float;
  currency : string;
  status : string;
  created_at : Timestamp;
  processed_at : option Timestamp;
}.
End Transaction.

(** One key of the JSON object of a POST body, as pydantic's validator for the
    declared type of the field sees it. *)
Inductive Field (A : Type) :=
| Missing                 (* the key is absent *)
| Mistyped                (* the key is present, with a value the declared type
                             does not accept: null, a list, text where a number
                             is declared, ... *)
| Given (a : A).          (* the key is present and validates to [a] *)
Arguments Missing {A}.
Arguments Mistyped {A}.
Arguments Given {A} a.

(** The JSON object of a POST body, field by field. *)
Module JsonBody.
Record t := {
  transaction_id : Field string;
  source_account : Field string;
  destination_account : Field string;
  amount : Field float;
  currency : Field string;
}.
End JsonBody.

(** Validation of a body against [WebhookRequest]: all five fields are
    required and each must validate at its declared type; the model declares
    plain [str] and [float] fields and no further constraint (no minimal
    length, no bound, no finiteness). *)
Definition WebhookRequest_validate (b : JsonBody.t) : option WebhookRequest.t :=
  match JsonBody.transaction_id b, JsonBody.source_account b,
        JsonBody.destination_account b, JsonBody.amount b, JsonBody.currency b with
  | Given tid, Given src, Given dst, Given amt, Given cur =>
      Some {| WebhookRequest.transaction_id := tid;
              WebhookRequest.source_account := src;
              WebhookRequest.destination_account := dst;
              WebhookRequest.amount := amt;
              WebhookRequest.currency := cur |}
  | _, _, _, _, _ => None
  end.

(** ** The world the handlers run in *)

(** What the rest of the world does to the shared database right before one
    store call of this process is served. *)
Inductive Interference :=
| Quiet                              (* nothing: the call is served as is *)
| Outage                             (* the store is unreachable: the call raises *)
| Rival (d : WebhookRequest.t).      (* a sibling server process creates the
                                        record of [d] first *)

Inductive Level := INFO | ERROR.

(** Progress of one [process_transaction] coroutine. *)
Inductive TaskState :=
| Queued                             (* added by [add_task], not started *)
| Sleeping (wake : Z)                (* suspended in [asyncio.sleep] *)
| Finished.

Record Task := {
  task_arg : Transaction.t;          (* the [transaction_data] argument *)
  task_state : TaskState;
}.

Record World := {
  table : list Transaction.t;        (* the [transactions] table, in insertion order *)
  clock : Z;                         (* [datetime.now(timezone.utc)] *)
  env : list Interference;           (* one entry is consumed by each store call *)
  tasks : list Task;                 (* every [background_tasks.add_task], in order *)
  logs : list (Level * string);      (* [logger.info] / [logger.error] lines *)
}.

Definition with_table (t : list Transaction.t) (w : World) : World :=
  {| table := t; clock := clock w; env := env w; tasks := tasks w; logs := logs w |}.
Definition with_clock (c : Z) (w : World) : World :=
  {| table := table w; clock := c; env := env w; tasks := tasks w; logs := logs w |}.
Definition with_env (e : list Interference) (w : World) : World :=
  {| table := table w; clock := clock w; env := e; tasks := tasks w; logs := logs w |}.
Definition with_tasks (q : list Task) (w : World) : World :=
  {| table := table w; clock := clock w; env := env w; tasks := q; logs := logs w |}.
Definition with_logs (l : list (Level * string)) (w : World) : World :=
  {| table := table w; clock := clock w; env := env w; tasks := tasks w; logs := l |}.

(** ** Exceptions and the handler monad *)

Inductive Exn :=
| StoreUnavailable                               (* the client could not reach the store *)
| UniqueViolation                                (* the store refused a second row for an id *)
| ValueError                                     (* the client could not encode a request body *)
| HTTPException (status_code : Z) (detail : string).

Inductive Outcome (A : Type) :=
| Return (a : A)
| Raise (e : Exn).
Arguments Return {A} a.
Arguments Raise {A} e.

Definition M (A : Type) : Type := World -> Outcome A * World.

Definition ret {A} (a : A) : M A := fun w => (Return a, w).
Definition raise {A} (e : Exn) : M A := fun w => (Raise e, w).
Definition bind {A B} (m : M A) (k : A -> M B) : M B :=
  fun w => match m w with
           | (Return a, w') => k a w'
           | (Raise e, w') => (Raise e, w')
           end.
(** [try: body except Exception as e: handler(e)] *)
Definition try_except {A} (body : M A) (handler : Exn -> M A) : M A :=
  fun w => match body w with
           | (Return a, w') => (Return a, w')
           | (Raise e, w') => handler e w'
           end.

Notation "x <- m ;; k" := (bind m (fun x => k))
  (at level 100, m at next level, right associativity).
Notation "m ;;; k" := (bind m (fun _ => k))
  (at level 100, right associativity).

(** [str(e)] *)
Definition str (e : Exn) : string :=
  match e with
  | StoreUnavailable => "store unavailable"
  | UniqueViolation => "duplicate key value violates unique constraint"
  | ValueError => "Out of range float values are not JSON compliant"
  | HTTPException _ detail => detail
  end.

Definition logger_info (msg : string) : M unit :=
  fun w => (Return tt, with_logs (logs w ++ [(INFO, msg)]) w).
Definition logger_error (msg : string) : M unit :=
  fun w => (Return tt, with_logs (logs w ++ [(ERROR, msg)]) w).
Definition utcnow : M Timestamp := fun w => (Return (clock w), w).
(** [background_tasks.add_task(process_transaction, transaction_record)] *)
Definition add_task (transaction_record : Transaction.t) : M unit :=
  fun w => (Return tt,
            with_tasks (tasks w ++ [{| task_arg := transaction_record;
                                       task_state := Queued |}]) w).

(** ** The Transaction Store *)

(** The record [receive_webhook] builds for a new transaction (the dict
    literal [transaction_record]). *)
Definition new_transaction (webhook_data : WebhookRequest.t) (now : Timestamp)
  : Transaction.t :=
  {| Transaction.transaction_id := WebhookRequest.transaction_id webhook_data;
     Transaction.source_account := WebhookRequest.source_account webhook_data;
     Transaction.destination_account := WebhookRequest.destination_account webhook_data;
     Transaction.amount := WebhookRequest.amount webhook_data;
     Transaction.currency := WebhookRequest.currency webhook_data;
     Transaction.status := "PROCESSING";
     Transaction.created_at := now;
     Transaction.processed_at := None |}.

(** The update dict [{"status": ..., "processed_at": ...}] applied to a row:
    the two named columns are overwritten, the others are kept. *)
Definition apply_update (status : string) (processed_at : Timestamp)
    (r : Transaction.t) : Transaction.t :=
  {| Transaction.transaction_id := Transaction.transaction_id r;
     Transaction.source_account := Transaction.source_account r;
     Transaction.destination_account := Transaction.destination_account r;
     Transaction.amount := Transaction.amount r;
     Transaction.currency := Transaction.currency r;
     Transaction.status := status;
     Transaction.created_at := Transaction.created_at r;
     Transaction.processed_at := Some processed_at |}.

(** [.eq("transaction_id", id)] *)
Definition has_id (id : string) (r : Transaction.t) : Prop :=
  Transaction.transaction_id r = id.

#[global] Instance has_id_dec (id : string) (r : Transaction.t) : Decision (has_id id r) :=
  decide (Transaction.transaction_id r = id).

(** Modelled from the spec: [database.py] and the Supabase service behind it
    are not part of the sources.  The store is "a durable key-value/record
    store keyed by transaction identifier, supporting point lookup, conditional
    insert, and field update": [FindById(id) -> Record?],
    [InsertIfAbsent(record) -> {Inserted | AlreadyExists}],
    [UpdateFields(id, fields) -> Ok | NotFound].  A refused insert reaches the
    Python client as an exception; an update that matches no row is an
    ordinary, empty result. *)
Definition find_by_id (id : string) (t : list Transaction.t) : list Transaction.t :=
  filter (has_id id) t.

Definition insert_if_absent (r : Transaction.t) (t : list Transaction.t)
  : Outcome unit * list Transaction.t :=
  match find_by_id (Transaction.transaction_id r) t with
  | [] => (Return tt, t ++ [r])
  | _ :: _ => (Raise UniqueViolation, t)
  end.

Definition update_fields (id : string) (f : Transaction.t -> Transaction.t)
    (t : list Transaction.t) : list Transaction.t :=
  (fun r => if decide (has_id id r) then f r else r) <$> t.

(** A sibling server process running the same admission code creates the
    record of [d], unless one is already there. *)
Definition interfere (i : Interference) (now : Timestamp)
    (t : list Transaction.t) : list Transaction.t :=
  match i with
  | Rival d => snd (insert_if_absent (new_transaction d now) t)
  | Quiet | Outage => t
  end.

(** One round trip to the store ([....execute()]): the next entry of [env]
    says whether the call gets through and what happened just before it. *)
Definition execute {A} (op : list Transaction.t -> Outcome A * list Transaction.t)
  : M A :=
  fun w =>
    let i := default Quiet (head (env w)) in
    let w1 := with_env (tail (env w)) w in
    match i with
    | Outage => (Raise StoreUnavailable, w1)
    | Quiet | Rival _ =>
        let '(o, t') := op (interfere i (clock w) (table w)) in
        (o, with_table t' w1)
    end.

(** [supabase.table("transactions").select("*").eq("transaction_id", id).execute()];
    the result is the response's [.data]. *)
Definition select_eq (id : string) : M (list Transaction.t) :=
  execute (fun t => (Return (find_by_id id t), t)).

(** [math.isfinite]: neither an infinity nor NaN. *)
Definition isfinite (x : float) : bool :=
  match x with
  | S754_zero _ | S754_finite _ _ _ => true
  | S754_infinity _ | S754_nan => false
  end.

(** [supabase.table("transactions").insert(record).execute()].  The client
    encodes the record as the JSON body of its request and refuses a float that
    JSON cannot carry: for an infinite or NaN [amount] it raises before anything
    is sent, so no round trip to the store takes place. *)
Definition insert (record : Transaction.t) : M unit :=
  if isfinite (Transaction.amount record)
  then execute (insert_if_absent record)
  else raise ValueError.

(** [supabase.table("transactions").update({"status": s, "processed_at": p})
      .eq("transaction_id", id).execute()] *)
Definition update_eq (status : string) (processed_at : Timestamp) (id : string)
  : M (list Transaction.t) :=
  execute (fun t =>
             let t' := update_fields id (apply_update status processed_at) t in
             (Return (find_by_id id t'), t')).

(** ** HTTP responses *)

Inductive Content :=
| Empty
| Detail (detail : string)
| Json (t : TransactionResponse.t)
| ValidationErrors.

Record HttpResponse := {
  status_code : Z;
  content : Content;
}.

(** [Response(status_code=c)] *)
Definition Response (c : Z) : HttpResponse :=
  {| status_code := c; content := Empty |}.

(** ** The handlers of [main.py] *)

(** [receive_webhook], the body of [POST /v1/webhooks/transactions] once the
    payload has been validated. *)
Definition receive_webhook (webhook_data : WebhookRequest.t) : M HttpResponse :=
  try_except
    (existing <- select_eq (WebhookRequest.transaction_id webhook_data) ;;
     match existing with
     | _ :: _ =>
         logger_info ("Duplicate transaction received: "
                      +:+ WebhookRequest.transaction_id webhook_data) ;;;
         ret (Response 202)
     | [] =>
         now <- utcnow ;;
         let transaction_record := new_transaction webhook_data now in
         insert transaction_record ;;;
         add_task transaction_record ;;;
         logger_info ("Transaction " +:+ WebhookRequest.transaction_id webhook_data
                      +:+ " queued for processing") ;;;
         ret (Response 202)
     end)
    (fun e =>
       logger_error ("Error receiving webhook: " +:+ str e) ;;;
       raise (HTTPException 500 "Internal server error")).

(** [get_transaction], the body of [GET /v1/transactions/{transaction_id}]. *)
Definition get_transaction (transaction_id : string) : M TransactionResponse.t :=
  try_except
    (response <- select_eq transaction_id ;;
     match response with
     | [] => raise (HTTPException 404 "Transaction not found")
     | transaction :: _ =>
         ret {| TransactionResponse.transaction_id := Transaction.transaction_id transaction;
                TransactionResponse.source_account := Transaction.source_account transaction;
                TransactionResponse.destination_account :=
                  Transaction.destination_account transaction;
                TransactionResponse.amount := Transaction.amount transaction;
                TransactionResponse.currency := Transaction.currency transaction;
                TransactionResponse.status := Transaction.status transaction;
                TransactionResponse.created_at := Transaction.created_at transaction;
                TransactionResponse.processed_at := Transaction.processed_at transaction |}
     end)
    (fun e =>
       match e with
       | HTTPException _ _ => raise e
       | _ =>
           logger_error ("Error retrieving transaction: " +:+ str e) ;;;
           raise (HTTPException 500 "Internal server error")
       end).

(** [process_transaction] is a coroutine with one suspension point,
    [await asyncio.sleep(30)].  [process_transaction_start] runs it up to the
    [await] and yields the time at which the sleep is over;
    [process_transaction_resume] is the rest. *)
Definition DELAY : Z := 30.

Definition process_transaction_start (transaction_data : Transaction.t) : M Z :=
  let transaction_id := Transaction.transaction_id transaction_data in
  logger_info ("Starting processing for transaction: " +:+ transaction_id) ;;;
  now <- utcnow ;;
  ret (now + DELAY)%Z.

Definition process_transaction_resume (transaction_data : Transaction.t) : M unit :=
  let transaction_id := Transaction.transaction_id transaction_data in
  try_except
    (processed_at <- utcnow ;;
     response <- update_eq "PROCESSED" processed_at transaction_id ;;
     logger_info ("Transaction " +:+ transaction_id +:+ " processed successfully"))
    (fun e =>
       logger_error ("Error processing transaction " +:+ transaction_id
                     +:+ ": " +:+ str e)).

(** ** The server around the handlers *)

(** What FastAPI sends for a handler's outcome: the returned response, or the
    status and detail of a raised [HTTPException]. *)
Definition render {A} (ok : A -> HttpResponse) (o : Outcome A) : HttpResponse :=
  match o with
  | Return a => ok a
  | Raise (HTTPException c d) => {| status_code := c; content := Detail d |}
  | Raise _ => {| status_code := 500; content := Detail "Internal Server Error" |}
  end.

(** [@app.post("/v1/webhooks/transactions", status_code=202)]: the body is
    validated against [WebhookRequest] before the handler is entered; a body
    that does not validate is answered 422 by the framework. *)
Definition post_webhook (body : JsonBody.t) (w : World) : HttpResponse * World :=
  match WebhookRequest_validate body with
  | None => ({| status_code := 422; content := ValidationErrors |}, w)
  | Some webhook_data =>
      let '(o, w') := receive_webhook webhook_data w in (render id o, w')
  end.

(** The text contains a ["/"]. *)
Fixpoint has_slash (s : string) : bool :=
  match s with
  | EmptyString => false
  | String c s' => Ascii.eqb c "/"%char || has_slash s'
  end.

(** The path parameter [{transaction_id}] stands for one non-empty path
    segment: the route matches no empty id and no id that contains a slash. *)
Definition routable (transaction_id : string) : bool :=
  negb (String.eqb transaction_id "") && negb (has_slash transaction_id).

(** What the router answers when no route matches the path. *)
Definition no_route : HttpResponse :=
  {| status_code := 404; content := Detail "Not Found" |}.

(** [@app.get("/v1/transactions/{transaction_id}", response_model=TransactionResponse)]:
    a path the route does not match never reaches the handler. *)
Definition get_endpoint (transaction_id : string) (w : World) : HttpResponse * World :=
  if routable transaction_id
  then let '(o, w') := get_transaction transaction_id w in
       (render (fun t => {| status_code := 200; content := Json t |}) o, w')
  else (no_route, w).

(** Everything that can happen to the server process. *)
Inductive Event :=
| Post (body : JsonBody.t)           (* a webhook delivery *)
| Get (transaction_id : string)      (* a status query *)
| Start (i : nat)                    (* background task [i] begins to run *)
| Wake (i : nat)                     (* task [i] resumes after its sleep *)
| Tick (d : Z).                      (* [d] time units pass *)

Definition set_task_state (i : nat) (s : TaskState) (w : World) : World :=
  with_tasks (alter (fun t => {| task_arg := task_arg t; task_state := s |}) i (tasks w)) w.

Definition step (e : Event) (w : World) : option HttpResponse * World :=
  match e with
  | Post body => let '(r, w') := post_webhook body w in (Some r, w')
  | Get transaction_id => let '(r, w') := get_endpoint transaction_id w in (Some r, w')
  | Start i =>
      match tasks w !! i with
      | Some {| task_arg := a; task_state := Queued |} =>
          match process_transaction_start a w with
          | (Return wake, w') => (None, set_task_state i (Sleeping wake) w')
          | (Raise _, w') => (None, set_task_state i Finished w')
          end
      | _ => (None, w)
      end
  | Wake i =>
      match tasks w !! i with
      | Some {| task_arg := a; task_state := Sleeping wake |} =>
          if (wake <=? clock w)%Z
          then let '(_, w') := process_transaction_resume a w in
               (None, set_task_state i Finished w')
          else (None, w)
      | _ => (None, w)
      end
  | Tick d => (None, if (0 <=? d)%Z then with_clock (clock w + d) w else w)
  end.

Fixpoint run (evs : list Event) (w : World) : list (option HttpResponse) * World :=
  match evs with
  | [] => ([], w)
  | e :: evs' =>
      let '(o, w1) := step e w in
      let '(os, w2) := run evs' w1 in
      (o :: os, w2)
  end.

(** The process right after start-up: an empty table, no task, no log. *)
Definition boot (env0 : list Interference) (clock0 : Z) : World :=
  {| table := []; clock := clock0; env := env0; tasks := []; logs := [] |}.

(** ** Sample data *)

Definition amount_2500_50 : float := S754_finite false 5001 (-1).

Definition txn_test_001 : WebhookRequest.t :=
  {| WebhookRequest.transaction_id := "txn_test_001";
     WebhookRequest.source_account := "acc_user_001";
     WebhookRequest.destination_account := "acc_merchant_001";
     WebhookRequest.amount := amount_2500_50;
     WebhookRequest.currency := "USD" |}.

Definition to_body (d : WebhookRequest.t) : JsonBody.t :=
  {| JsonBody.transaction_id := Given (WebhookRequest.transaction_id d);
     JsonBody.source_account := Given (WebhookRequest.source_account d);
     JsonBody.destination_account := Given (WebhookRequest.destination_account d);
     JsonBody.amount := Given (WebhookRequest.amount d);
     JsonBody.currency := Given (WebhookRequest.currency d) |}.

(** * Vocabulary of the properties *)

(** The table as the next store call of this process finds it. *)
Definition served_table (w : World) : list Transaction.t :=
  interfere (default Quiet (head (env w))) (clock w) (table w).

(** The world once the next entry of [env] has been consumed. *)
Definition after_call (t : list Transaction.t) (w : World) : World :=
  with_table t (with_env (tail (env w)) w).

(** [HTTPException(status_code=500, detail="Internal server error")] *)
Definition internal_server_error : Exn := HTTPException 500 "Internal server error".

(** Two server processes receive the first delivery of [txn_test_001] at the
    same moment: this one looks the id up and finds nothing, then the sibling
    creates the record, then this one's insert reaches the store. *)
Definition race_world : World := boot [Quiet; Rival txn_test_001] 1000.

(** The record of [txn_test_001] exists; a delivery with the same id but
    another payload arrives. *)
Definition conflicting_txn_test_001 : WebhookRequest.t :=
  {| WebhookRequest.transaction_id := "txn_test_001";
     WebhookRequest.source_account := "acc_user_999";
     WebhookRequest.destination_account := "acc_merchant_999";
     WebhookRequest.amount := S754_finite false 1 0;
     WebhookRequest.currency := "INR" |}.







(** [txn_test_001] has just been accepted at time 1000. *)
Definition accepted_world : World :=
  (post_webhook (to_body txn_test_001) (boot [] 1000)).2.

(** Its task has started and 30 time units have passed. *)
Definition slept_world : World := (run [Start 0; Tick 30] accepted_world).2.

(** The record of [txn_test_001] is gone from the table when its task wakes
    up. *)
Definition vanished_world : World :=
  {| table := [];
     clock := 1030;
     env := [];
     tasks := [{| task_arg := new_transaction txn_test_001 1000;
                  task_state := Sleeping 1030 |}];
     logs := [] |}.

(** The world after a store call that wrote nothing. *)
Definition settle (w : World) : World := after_call (served_table w) w.

(** The task [add_task] appends for the record [a]. *)
Definition queued (a : Transaction.t) : Task := {| task_arg := a; task_state := Queued |}.

(** The five ways through [receive_webhook]. *)
Inductive Path := LookupFailed | Duplicate | InsertFailed | Created | Unencodable.

(** The only changes the table undergoes: a record is created by
    [new_transaction] under an id that has none, or the rows of one id are set
    to PROCESSED with a [processed_at]. *)
Inductive writes : list Transaction.t -> list Transaction.t -> Prop :=
| writes_none t : writes t t
| writes_create t d now :
    find_by_id (WebhookRequest.transaction_id d) t = [] ->
    writes t (t ++ [new_transaction d now])
| writes_finalize t id now :
    writes t (update_fields id (apply_update "PROCESSED" now) t)
| writes_then t1 t2 t3 : writes t1 t2 -> writes t2 t3 -> writes t1 t3.

(** [processed_at] is set exactly on PROCESSED records. *)
Definition stamped_iff_processed (r : Transaction.t) : Prop :=
  Transaction.processed_at r <> None <-> Transaction.status r = "PROCESSED".

(** The two values of the status enum. *)
Definition valid_status (r : Transaction.t) : Prop :=
  Transaction.status r = "PROCESSING" \/ Transaction.status r = "PROCESSED".

(** A record as [new_transaction] makes it. *)
Definition fresh (r : Transaction.t) : Prop :=
  Transaction.status r = "PROCESSING" /\ Transaction.processed_at r = None.

(** Every task was queued for a record that is in the table. *)
Definition known (w : World) : Prop :=
  forall a, a ∈ task_arg <$> tasks w ->
            find_by_id (Transaction.transaction_id a) (table w) <> [].

(** Rows that only ever get appended, each as [new_transaction] makes it. *)
Definition grows (t t' : list Transaction.t) : Prop :=
  exists news, t' = t ++ news /\ Forall fresh news.

(** [e] is a delivery that validates, carries the id [id] and has a finite
    [amount]. *)
Definition delivers (id : string) (e : Event) : bool :=
  match e with
  | Post body =>
      match WebhookRequest_validate body with
      | Some d => bool_decide (WebhookRequest.transaction_id d = id)
                  && isfinite (WebhookRequest.amount d)
      | None => false
      end
  | _ => false
  end.

(** The background tasks that were queued for [id]. *)
Definition tasks_of (id : string) (q : list Task) : list Task :=
  filter (fun t => has_id id (task_arg t)) q.

(** After the history [evs], with the store always reachable and no sibling
    process: an id has one record and one task if it was ever delivered, and
    none otherwise. *)
Definition once (evs : list Event) (w : World) : Prop :=
  env w = [] /\
  forall id,
    length (find_by_id id (table w)) = (if existsb (delivers id) evs then 1 else 0) /\
    length (tasks_of id (tasks w)) = (if existsb (delivers id) evs then 1 else 0).

(** * The health probe *)

(** [class HealthCheckResponse(BaseModel)] *)
Module HealthCheckResponse.
Record t := {
  status : string;
  current_time : Timestamp;
}.
End HealthCheckResponse.

(** [health_check], the body of [GET /]. *)
Definition health_check : M HealthCheckResponse.t :=
  now <- utcnow ;;
  ret {| HealthCheckResponse.status := "HEALTHY";
         HealthCheckResponse.current_time := now |}.

(** The columns of a record that only [receive_webhook] writes. *)
Definition same_payload (r r' : Transaction.t) : Prop :=
  Transaction.transaction_id r' = Transaction.transaction_id r /\
  Transaction.source_account r' = Transaction.source_account r /\
  Transaction.destination_account r' = Transaction.destination_account r /\
  Transaction.amount r' = Transaction.amount r /\
  Transaction.currency r' = Transaction.currency r /\
  Transaction.created_at r' = Transaction.created_at r.

(** No sibling process writes to the store. *)
Definition sole_writer (w : World) : Prop :=
  Forall (fun i => forall d, i <> Rival d) (env w).

(** What [get_transaction] returns for the row [r]. *)
Definition response_of (r : Transaction.t) : TransactionResponse.t :=
  {| TransactionResponse.transaction_id := Transaction.transaction_id r;
     TransactionResponse.source_account := Transaction.source_account r;
     TransactionResponse.destination_account := Transaction.destination_account r;
     TransactionResponse.amount := Transaction.amount r;
     TransactionResponse.currency := Transaction.currency r;
     TransactionResponse.status := Transaction.status r;
     TransactionResponse.created_at := Transaction.created_at r;
     TransactionResponse.processed_at := Transaction.processed_at r |}.

(** The second payload of the load test in [test_criteria.py]. *)
Definition txn_test_002 : WebhookRequest.t :=
  {| WebhookRequest.transaction_id := "txn_test_002";
     WebhookRequest.source_account := "acc_user_002";
     WebhookRequest.destination_account := "acc_merchant_002";
     WebhookRequest.amount := S754_finite false 501 1;
     WebhookRequest.currency := "INR" |}.

(** Rows appended under ids that had no record, each as [new_transaction]
    makes it. *)
Definition appended (t t' : list Transaction.t) : Prop :=
  exists news,
    t' = t ++ news /\
    Forall (fun r => fresh r /\ find_by_id (Transaction.transaction_id r) t = []) news.

(** The table [t], the clock [c] and the task queue [q] agree on time: a
    task's record was created no later than now, a sleeping task wakes no
    earlier than 30 after its record was created, the stored row of a task's id
    carries the task's [created_at], and a [processed_at] is at least 30 after
    the row's [created_at]. *)
Definition on_schedule_at (t : list Transaction.t) (c : Z) (q : list Task) : Prop :=
  (forall k, k ∈ q ->
     (Transaction.created_at (task_arg k) <= c)%Z /\
     forall wake, task_state k = Sleeping wake ->
                  (Transaction.created_at (task_arg k) + 30 <= wake)%Z) /\
  (forall k r, k ∈ q -> r ∈ t ->
     Transaction.transaction_id r = Transaction.transaction_id (task_arg k) ->
     Transaction.created_at r = Transaction.created_at (task_arg k)) /\
  (forall r p, r ∈ t -> Transaction.processed_at r = Some p ->
     (Transaction.created_at r + 30 <= p)%Z).

(** As long as a task has not finished, the rows of its id carry no
    [processed_at]. *)
Definition pending_unprocessed (t : list Transaction.t) (q : list Task) : Prop :=
  forall k r, k ∈ q -> task_state k <> Finished -> r ∈ t ->
    Transaction.transaction_id r = Transaction.transaction_id (task_arg k) ->
    Transaction.processed_at r = None.


(** * Properties *)

(** The scenario of [test_criteria.py], run from start-up. *)
Example run_txn_test_001 :
  run [Post (to_body txn_test_001); Get "txn_test_001"; Start 0; Tick 30; Wake 0;
       Post (to_body txn_test_001); Get "txn_test_001"; Get "txn_does_not_exist"]
      (boot [] 1000)
  = ([Some (Response 202);
      Some {| status_code := 200;
              content := Json {| TransactionResponse.transaction_id := "txn_test_001";
                                 TransactionResponse.source_account := "acc_user_001";
                                 TransactionResponse.destination_account := "acc_merchant_001";
                                 TransactionResponse.amount := amount_2500_50;
                                 TransactionResponse.currency := "USD";
                                 TransactionResponse.status := "PROCESSING";
                                 TransactionResponse.created_at := 1000;
                                 TransactionResponse.processed_at := None |} |};
      None; None; None;
      Some (Response 202);
      Some {| status_code := 200;
              content := Json {| TransactionResponse.transaction_id := "txn_test_001";
                                 TransactionResponse.source_account := "acc_user_001";
                                 TransactionResponse.destination_account := "acc_merchant_001";
                                 TransactionResponse.amount := amount_2500_50;
                                 TransactionResponse.currency := "USD";
                                 TransactionResponse.status := "PROCESSED";
                                 TransactionResponse.created_at := 1000;
                                 TransactionResponse.processed_at := Some 1030%Z |} |};
      Some {| status_code := 404; content := Detail "Transaction not found" |}],
     {| table := [apply_update "PROCESSED" 1030 (new_transaction txn_test_001 1000)];
        clock := 1030;
        env := [];
        tasks := [{| task_arg := new_transaction txn_test_001 1000; task_state := Finished |}];
        logs := [(INFO, "Transaction txn_test_001 queued for processing");
                 (INFO, "Starting processing for transaction: txn_test_001");
                 (INFO, "Transaction txn_test_001 processed successfully");
                 (INFO, "Duplicate transaction received: txn_test_001")] |}).
Proof. vm_compute. reflexivity. Qed.

(** ** Store calls *)

Lemma execute_outage {A} (op : list Transaction.t -> Outcome A * list Transaction.t) w :
  head (env w) = Some Outage ->
  execute op w = (Raise StoreUnavailable, with_env (tail (env w)) w).
Proof. intros H. unfold execute. rewrite H. reflexivity. Qed.

Lemma execute_served {A} (op : list Transaction.t -> Outcome A * list Transaction.t) w :
  head (env w) <> Some Outage ->
  execute op w = ((op (served_table w)).1, after_call (op (served_table w)).2 w).
Proof.
  intros H. unfold execute, served_table, after_call.
  destruct (head (env w)) as [[| |d]|] eqn:E; simpl; try congruence;
    destruct (op _); reflexivity.
Qed.

Lemma execute_cases {A} (op : list Transaction.t -> Outcome A * list Transaction.t) w :
  (head (env w) = Some Outage /\
   execute op w = (Raise StoreUnavailable, with_env (tail (env w)) w)) \/
  (head (env w) <> Some Outage /\
   execute op w = ((op (served_table w)).1, after_call (op (served_table w)).2 w)).
Proof.
  destruct (head (env w)) as [[| |d]|] eqn:E.
  2: { left. split; [done|]. by apply execute_outage. }
  all: right; split; [congruence|]; apply execute_served; congruence.
Qed.

Lemma served_table_outage w : head (env w) = Some Outage -> served_table w = table w.
Proof. intros H. unfold served_table. rewrite H. reflexivity. Qed.

Lemma served_table_calm w : env w = [] -> served_table w = table w.
Proof. intros H. unfold served_table. rewrite H. reflexivity. Qed.

(** ** What a row keeps through an update *)

Lemma find_by_id_app id t1 t2 :
  find_by_id id (t1 ++ t2) = find_by_id id t1 ++ find_by_id id t2.
Proof. apply list.filter_app. Qed.

Lemma find_by_id_elem id t r :
  r ∈ find_by_id id t <-> Transaction.transaction_id r = id /\ r ∈ t.
Proof. unfold find_by_id. rewrite list_elem_of_filter. reflexivity. Qed.

Lemma find_by_id_nil id t :
  find_by_id id t = [] <-> forall r, r ∈ t -> Transaction.transaction_id r <> id.
Proof.
  split.
  - intros H r Hr Hid.
    assert (r ∈ find_by_id id t) as Hin by (apply find_by_id_elem; auto).
    rewrite H in Hin. by apply not_elem_of_nil in Hin.
  - intros H. destruct (find_by_id id t) as [|r l] eqn:E; [done|].
    assert (r ∈ find_by_id id t) as Hin by (rewrite E; left).
    apply find_by_id_elem in Hin as [Hid Hr]. by destruct (H r Hr).
Qed.

Lemma update_fields_length id f t : length (update_fields id f t) = length t.
Proof. unfold update_fields. by rewrite length_fmap. Qed.

Lemma update_fields_lookup id f t k :
  update_fields id f t !! k
  = (fun r => if decide (has_id id r) then f r else r) <$> (t !! k).
Proof. unfold update_fields. by rewrite list_lookup_fmap. Qed.

Lemma find_by_id_update_length id id' s p t :
  length (find_by_id id (update_fields id' (apply_update s p) t))
  = length (find_by_id id t).
Proof.
  unfold find_by_id, update_fields. induction t as [|r t IH]; [done|].
  rewrite fmap_cons, !filter_cons.
  assert (has_id id (if decide (has_id id' r) then apply_update s p r else r)
          <-> has_id id r) as Hiff.
  { unfold has_id. by destruct (decide _). }
  destruct (decide (has_id id r)) as [H|H], (decide (has_id id _)) as [H'|H'];
    simpl; try tauto; by rewrite IH.
Qed.

Lemma find_by_id_update_other id id' f t :
  id <> id' -> (forall r, Transaction.transaction_id (f r) = Transaction.transaction_id r) ->
  find_by_id id (update_fields id' f t) = find_by_id id t.
Proof.
  intros Hne Hf. unfold find_by_id, update_fields. induction t as [|r t IH]; [done|].
  rewrite fmap_cons, !filter_cons.
  destruct (decide (has_id id' r)) as [H'|H'].
  - destruct (decide (has_id id (f r))) as [H|H].
    + unfold has_id in *. rewrite Hf in H. congruence.
    + destruct (decide (has_id id r)) as [H2|H2]; [|apply IH].
      unfold has_id in *. congruence.
  - destruct (decide (has_id id r)); by rewrite IH.
Qed.

Lemma execute_frame {A} (op : list Transaction.t -> Outcome A * list Transaction.t) w o w1 :
  execute op w = (o, w1) ->
  tasks w1 = tasks w /\ clock w1 = clock w /\ logs w1 = logs w /\ env w1 = tail (env w).
Proof.
  destruct (execute_cases op w) as [[_ E]|[_ E]]; rewrite E; intros [= <- <-]; done.
Qed.

Lemma insert_frame r w o w2 :
  insert r w = (o, w2) ->
  tasks w2 = tasks w /\ clock w2 = clock w /\ logs w2 = logs w.
Proof.
  unfold insert. destruct (isfinite _).
  - intros H. by apply execute_frame in H as (? & ? & ? & _).
  - by intros [= <- <-].
Qed.

Lemma select_eq_table id w o w1 :
  select_eq id w = (o, w1) -> table w1 = served_table w.
Proof.
  unfold select_eq.
  destruct (execute_cases (fun t => (Return (find_by_id id t), t)) w) as [[H E]|[_ E]];
    rewrite E; intros [= <- <-]; simpl; [by rewrite served_table_outage|done].
Qed.

Lemma select_eq_returns id w rows w1 :
  select_eq id w = (Return rows, w1) ->
  head (env w) <> Some Outage /\ rows = find_by_id id (served_table w).
Proof.
  unfold select_eq.
  destruct (execute_cases (fun t => (Return (find_by_id id t), t)) w) as [[H E]|[H E]];
    rewrite E; [discriminate|]. simpl. by intros [= <- <-].
Qed.

Lemma select_eq_raises id w e w1 :
  select_eq id w = (Raise e, w1) -> head (env w) = Some Outage /\ e = StoreUnavailable.
Proof.
  unfold select_eq.
  destruct (execute_cases (fun t => (Return (find_by_id id t), t)) w) as [[H E]|[H E]];
    rewrite E; [|discriminate]. by intros [= <- <-].
Qed.

(** ** The four ways through [receive_webhook] *)

Section ReceiveWebhook.
Variable webhook_data : WebhookRequest.t.

Lemma receive_webhook_lookup_raises w e w1 :
  select_eq (WebhookRequest.transaction_id webhook_data) w = (Raise e, w1) ->
  receive_webhook webhook_data w
  = (Raise internal_server_error,
     with_logs (logs w1 ++ [(ERROR, "Error receiving webhook: " +:+ str e)]) w1).
Proof.
  intros H. unfold receive_webhook, try_except, bind. rewrite H. reflexivity.
Qed.

Lemma receive_webhook_duplicate w r rows w1 :
  select_eq (WebhookRequest.transaction_id webhook_data) w = (Return (r :: rows), w1) ->
  receive_webhook webhook_data w
  = (Return (Response 202),
     with_logs (logs w1 ++ [(INFO, "Duplicate transaction received: "
                                   +:+ WebhookRequest.transaction_id webhook_data)]) w1).
Proof.
  intros H. unfold receive_webhook, try_except, bind. rewrite H. reflexivity.
Qed.

Lemma receive_webhook_insert_raises w w1 e w2 :
  select_eq (WebhookRequest.transaction_id webhook_data) w = (Return [], w1) ->
  insert (new_transaction webhook_data (clock w1)) w1 = (Raise e, w2) ->
  receive_webhook webhook_data w
  = (Raise internal_server_error,
     with_logs (logs w2 ++ [(ERROR, "Error receiving webhook: " +:+ str e)]) w2).
Proof.
  intros H1 H2. unfold receive_webhook, try_except, bind. rewrite H1.
  unfold utcnow. rewrite H2. reflexivity.
Qed.

Lemma receive_webhook_created w w1 w2 :
  select_eq (WebhookRequest.transaction_id webhook_data) w = (Return [], w1) ->
  insert (new_transaction webhook_data (clock w1)) w1 = (Return tt, w2) ->
  receive_webhook webhook_data w
  = (Return (Response 202),
     with_logs (logs w2 ++ [(INFO, "Transaction "
                                   +:+ WebhookRequest.transaction_id webhook_data
                                   +:+ " queued for processing")])
       (with_tasks (tasks w2 ++ [{| task_arg := new_transaction webhook_data (clock w1);
                                    task_state := Queued |}]) w2)).
Proof.
  intros H1 H2. unfold receive_webhook, try_except, bind. rewrite H1.
  unfold utcnow. rewrite H2. reflexivity.
Qed.

End ReceiveWebhook.

Lemma post_webhook_valid body d w :
  WebhookRequest_validate body = Some d ->
  post_webhook body w = (render id (receive_webhook d w).1, (receive_webhook d w).2).
Proof. intros H. unfold post_webhook. rewrite H. by destruct (receive_webhook d w). Qed.

Lemma interfere_cases i now t :
  interfere i now t = t \/
  exists d, i = Rival d /\ find_by_id (WebhookRequest.transaction_id d) t = [] /\
            interfere i now t = t ++ [new_transaction d now].
Proof.
  destruct i as [| |d]; simpl; auto. unfold insert_if_absent. simpl.
  destruct (find_by_id _ t) eqn:E; simpl; eauto.
Qed.

Lemma find_by_id_interfere id i now t :
  find_by_id id t <> [] -> find_by_id id (interfere i now t) = find_by_id id t.
Proof.
  intros Hne. destruct (interfere_cases i now t) as [->|(d & -> & Hd & ->)]; [done|].
  rewrite find_by_id_app. unfold find_by_id at 2. rewrite filter_cons, filter_nil.
  destruct (decide _) as [H|H]; [|by rewrite app_nil_r].
  unfold has_id in H. simpl in H. congruence.
Qed.

(** ** Admission under store failures *)

(** C3: when the lookup raises, or the lookup finds nothing and the insert
    raises, the endpoint answers 500 "Internal server error" (so not 202), an
    error line is logged, and no background task is added. *)
Theorem C3_store_failure_is_500 (body : JsonBody.t) (d : WebhookRequest.t) (w : World) :
  WebhookRequest_validate body = Some d ->
  (exists e w1, select_eq (WebhookRequest.transaction_id d) w = (Raise e, w1)) \/
  (exists w1 e w2, select_eq (WebhookRequest.transaction_id d) w = (Return [], w1) /\
                   insert (new_transaction d (clock w1)) w1 = (Raise e, w2)) ->
  (receive_webhook d w).1 = Raise internal_server_error /\
  (post_webhook body w).1
    = {| status_code := 500; content := Detail "Internal server error" |} /\
  status_code (post_webhook body w).1 <> 202%Z /\
  tasks (post_webhook body w).2 = tasks w /\
  exists e, logs (post_webhook body w).2
            = logs w ++ [(ERROR, "Error receiving webhook: " +:+ str e)].
Proof.
  intros Hv Hfail. rewrite (post_webhook_valid _ _ _ Hv).
  destruct Hfail as [(e & w1 & H1)|(w1 & e & w2 & H1 & H2)].
  - rewrite (receive_webhook_lookup_raises _ _ _ _ H1). simpl.
    apply execute_frame in H1 as (Ht & _ & Hl & _).
    repeat split; try done. exists e. by rewrite Hl.
  - rewrite (receive_webhook_insert_raises _ _ _ _ _ H1 H2). simpl.
    apply execute_frame in H1 as (Ht1 & _ & Hl1 & _).
    apply insert_frame in H2 as (Ht2 & _ & Hl2).
    repeat split; try done; [congruence|]. exists e. congruence.
Qed.

(** The store is down when the lookup of a first delivery is made. *)
Lemma C3_witness :
  (post_webhook (to_body txn_test_001) (boot [Outage] 1000)).1
    = {| status_code := 500; content := Detail "Internal server error" |} /\
  tasks (post_webhook (to_body txn_test_001) (boot [Outage] 1000)).2 = [].
Proof.
  assert (WebhookRequest_validate (to_body txn_test_001) = Some txn_test_001) as Hv
    by reflexivity.
  destruct (C3_store_failure_is_500 (to_body txn_test_001) txn_test_001
              (boot [Outage] 1000) Hv) as (_ & H1 & _ & H2 & _).
  - left. exists StoreUnavailable, (with_env [] (boot [Outage] 1000)). reflexivity.
  - split; [exact H1 | exact H2].
Defined.

(** ** The race between two first deliveries *)

(** C2, as stated, fails: the request whose insert is refused by the unique
    constraint is answered 500, not 202. *)
Lemma C2_counterexample :
  select_eq "txn_test_001" race_world
    = (Return [], boot [Rival txn_test_001] 1000) /\
  insert (new_transaction txn_test_001 1000) (boot [Rival txn_test_001] 1000)
    = (Raise UniqueViolation,
       with_table [new_transaction txn_test_001 1000] (boot [] 1000)) /\
  (post_webhook (to_body txn_test_001) race_world).1
    = {| status_code := 500; content := Detail "Internal server error" |} /\
  status_code (post_webhook (to_body txn_test_001) race_world).1 <> 202%Z.
Proof. repeat split; vm_compute; congruence. Qed.

(** C2, amended: the store refuses a second row for an id (the insert raises
    and leaves the table as it was); a request whose lookup found nothing and
    whose insert is refused that way is answered 500 "Internal server error",
    adds no background task, and leaves in the table exactly what the store
    held when the insert arrived, the existing record included. *)
Theorem C2_unique_violation_is_500 (body : JsonBody.t) (d : WebhookRequest.t)
    (w w1 w2 : World) :
  WebhookRequest_validate body = Some d ->
  select_eq (WebhookRequest.transaction_id d) w = (Return [], w1) ->
  insert (new_transaction d (clock w1)) w1 = (Raise UniqueViolation, w2) ->
  (forall r t, find_by_id (Transaction.transaction_id r) t <> [] ->
               insert_if_absent r t = (Raise UniqueViolation, t)) /\
  (post_webhook body w).1
    = {| status_code := 500; content := Detail "Internal server error" |} /\
  tasks (post_webhook body w).2 = tasks w /\
  table (post_webhook body w).2 = served_table w1 /\
  find_by_id (WebhookRequest.transaction_id d) (table (post_webhook body w).2) <> [].
Proof.
  intros Hv H1 H2. split.
  { intros r t Hne. unfold insert_if_absent. by destruct (find_by_id _ t). }
  rewrite (post_webhook_valid _ _ _ Hv).
  rewrite (receive_webhook_insert_raises _ _ _ _ _ H1 H2). simpl.
  pose proof (execute_frame _ _ _ _ H1) as (Ht1 & _).
  pose proof (insert_frame _ _ _ _ H2) as (Ht2 & _).
  unfold insert in H2. destruct (isfinite _); [|discriminate].
  destruct (execute_cases (insert_if_absent (new_transaction d (clock w1))) w1)
    as [[_ E]|[_ E]]; rewrite E in H2; [discriminate|].
  injection H2 as Ho Hw. unfold insert_if_absent in Ho, Hw. simpl in Ho, Hw.
  destruct (find_by_id _ (served_table w1)) eqn:Ef; [discriminate|].
  simpl in Hw. subst w2. simpl. repeat split; congruence.
Qed.

Lemma C2_witness :
  (post_webhook (to_body txn_test_001) race_world).1
    = {| status_code := 500; content := Detail "Internal server error" |} /\
  tasks (post_webhook (to_body txn_test_001) race_world).2 = [].
Proof.
  destruct (C2_unique_violation_is_500 (to_body txn_test_001) txn_test_001 race_world
              (boot [Rival txn_test_001] 1000)
              (with_table [new_transaction txn_test_001 1000] (boot [] 1000)))
    as (_ & H1 & H2 & _); [reflexivity | reflexivity | reflexivity |].
  split; [exact H1 | exact H2].
Defined.

(** ** Duplicates *)

(** C10: a delivery whose [transaction_id] already has a record is answered
    202 whatever its other fields say; the rows stored under that id are
    exactly what they were, the request writes nothing, and no background
    task is added. *)
Theorem C10_duplicate_keyed_by_id_only (body : JsonBody.t) (d : WebhookRequest.t)
    (w : World) (r : Transaction.t) :
  WebhookRequest_validate body = Some d ->
  r ∈ table w ->
  Transaction.transaction_id r = WebhookRequest.transaction_id d ->
  head (env w) <> Some Outage ->
  (post_webhook body w).1 = Response 202 /\
  find_by_id (WebhookRequest.transaction_id d) (table (post_webhook body w).2)
    = find_by_id (WebhookRequest.transaction_id d) (table w) /\
  r ∈ table (post_webhook body w).2 /\
  table (post_webhook body w).2 = served_table w /\
  tasks (post_webhook body w).2 = tasks w.
Proof.
  intros Hv Hr Hid Henv. rewrite (post_webhook_valid _ _ _ Hv).
  assert (find_by_id (WebhookRequest.transaction_id d) (table w) <> []) as Hne.
  { intros E. rewrite find_by_id_nil in E. by apply (E r). }
  assert (find_by_id (WebhookRequest.transaction_id d) (served_table w)
          = find_by_id (WebhookRequest.transaction_id d) (table w)) as Hsame
    by (by apply find_by_id_interfere).
  assert (r ∈ served_table w) as Hin.
  { assert (r ∈ find_by_id (WebhookRequest.transaction_id d) (served_table w)) as Hin
      by (rewrite Hsame; by apply find_by_id_elem).
    by apply find_by_id_elem in Hin as [_ Hin]. }
  destruct (select_eq (WebhookRequest.transaction_id d) w) as [o w1] eqn:Hsel.
  pose proof (select_eq_table _ _ _ _ Hsel) as Htab.
  pose proof (execute_frame _ _ _ _ Hsel) as (Ht & _).
  destruct o as [rows|e].
  - apply select_eq_returns in Hsel as Hrows. destruct Hrows as [_ ->].
    rewrite Hsame in Hsel.
    destruct (find_by_id _ (table w)) as [|r0 rows] eqn:Ef; [congruence|].
    rewrite (receive_webhook_duplicate _ _ _ _ _ Hsel). simpl.
    rewrite Htab. repeat split; done.
  - apply select_eq_raises in Hsel as [Hout _]. contradiction.
Qed.

Lemma C10_witness :
  (post_webhook (to_body conflicting_txn_test_001)
     (with_table [new_transaction txn_test_001 1000] (boot [] 2000))).1 = Response 202 /\
  table (post_webhook (to_body conflicting_txn_test_001)
           (with_table [new_transaction txn_test_001 1000] (boot [] 2000))).2
    = [new_transaction txn_test_001 1000].
Proof.
  destruct (C10_duplicate_keyed_by_id_only (to_body conflicting_txn_test_001)
              conflicting_txn_test_001
              (with_table [new_transaction txn_test_001 1000] (boot [] 2000))
              (new_transaction txn_test_001 1000))
    as (H1 & _ & _ & H2 & _).
  - reflexivity.
  - simpl. left.
  - reflexivity.
  - simpl. discriminate.
  - split; [exact H1 | exact H2].
Defined.

(** ** The query endpoint *)




(** ** The deferred processor *)

Lemma process_transaction_start_eq a w :
  process_transaction_start a w
  = (Return (clock w + DELAY)%Z,
     with_logs (logs w ++ [(INFO, "Starting processing for transaction: "
                                  +:+ Transaction.transaction_id a)]) w).
Proof. reflexivity. Qed.

Lemma update_eq_cases status processed_at id w :
  (head (env w) = Some Outage /\
   update_eq status processed_at id w
   = (Raise StoreUnavailable, with_env (tail (env w)) w)) \/
  (head (env w) <> Some Outage /\
   update_eq status processed_at id w
   = (Return (find_by_id id (update_fields id (apply_update status processed_at)
                               (served_table w))),
      after_call (update_fields id (apply_update status processed_at)
                    (served_table w)) w)).
Proof.
  unfold update_eq.
  match goal with
  | |- context [execute ?op w] =>
      destruct (execute_cases op w) as [[H E]|[H E]]; [left|right]; by split
  end.
Qed.

Lemma process_transaction_resume_cases a w :
  (head (env w) = Some Outage /\
   process_transaction_resume a w
   = (Return tt,
      with_logs (logs w ++ [(ERROR, "Error processing transaction "
                                    +:+ Transaction.transaction_id a
                                    +:+ ": " +:+ str StoreUnavailable)])
        (with_env (tail (env w)) w))) \/
  (head (env w) <> Some Outage /\
   process_transaction_resume a w
   = (Return tt,
      with_logs (logs w ++ [(INFO, "Transaction " +:+ Transaction.transaction_id a
                                   +:+ " processed successfully")])
        (after_call (update_fields (Transaction.transaction_id a)
                       (apply_update "PROCESSED" (clock w)) (served_table w)) w))).
Proof.
  unfold process_transaction_resume, try_except, bind, utcnow.
  destruct (update_eq_cases "PROCESSED" (clock w) (Transaction.transaction_id a) w)
    as [[H E]|[H E]]; [left|right]; (split; [done|]); rewrite E; reflexivity.
Qed.

Lemma process_transaction_resume_returns a w :
  (process_transaction_resume a w).1 = Return tt.
Proof.
  destruct (process_transaction_resume_cases a w) as [[_ E]|[_ E]]; by rewrite E.
Qed.

Lemma served_table_lookup w k r :
  table w !! k = Some r -> served_table w !! k = Some r.
Proof.
  intros H. unfold served_table.
  destruct (interfere_cases (default Quiet (head (env w))) (clock w) (table w))
    as [->|(d & _ & _ & ->)]; [done|].
  by apply lookup_app_l_Some.
Qed.

(** C6: a started task sleeps until [DELAY = 30] time units after its start
    and cannot resume earlier.  When it resumes, every row the table held is
    still at its place with its [transaction_id], [source_account],
    [destination_account], [amount], [currency] and [created_at]; a row with
    another id is unchanged altogether; a row is either unchanged or has status
    PROCESSED and [processed_at] equal to the time of resumption; and when the
    update reaches the store, the rows of the task's id are set that way. *)
Theorem C6_finalization_frame (w : World) (i : nat) (a : Transaction.t) :
  tasks w !! i = Some {| task_arg := a; task_state := Queued |} ->
  DELAY = 30%Z /\
  tasks (step (Start i) w).2 !! i
    = Some {| task_arg := a; task_state := Sleeping (clock w + 30) |} /\
  table (step (Start i) w).2 = table w /\
  forall w2 : World,
    tasks w2 !! i = Some {| task_arg := a; task_state := Sleeping (clock w + 30) |} ->
    ((clock w2 < clock w + 30)%Z -> step (Wake i) w2 = (None, w2)) /\
    ((clock w + 30 <= clock w2)%Z ->
     forall k r, table w2 !! k = Some r ->
       exists r', table (step (Wake i) w2).2 !! k = Some r' /\
         Transaction.transaction_id r' = Transaction.transaction_id r /\
         Transaction.source_account r' = Transaction.source_account r /\
         Transaction.destination_account r' = Transaction.destination_account r /\
         Transaction.amount r' = Transaction.amount r /\
         Transaction.currency r' = Transaction.currency r /\
         Transaction.created_at r' = Transaction.created_at r /\
         (Transaction.transaction_id r <> Transaction.transaction_id a -> r' = r) /\
         (r' = r \/ (Transaction.status r' = "PROCESSED" /\
                     Transaction.processed_at r' = Some (clock w2))) /\
         (head (env w2) <> Some Outage ->
          Transaction.transaction_id r = Transaction.transaction_id a ->
          Transaction.status r' = "PROCESSED" /\
          Transaction.processed_at r' = Some (clock w2))).
Proof.
  intros Hq. split; [reflexivity|]. split; [|split].
  - simpl. rewrite Hq. simpl. rewrite list_lookup_alter_eq, Hq. reflexivity.
  - simpl. rewrite Hq. reflexivity.
  - intros w2 Hs. split.
    + intros Hlt. simpl. rewrite Hs.
      destruct (Z.leb_spec (clock w + 30) (clock w2)); [lia|reflexivity].
    + intros Hle k r Hk. simpl. rewrite Hs.
      destruct (Z.leb_spec (clock w + 30) (clock w2)); [|lia].
      destruct (process_transaction_resume_cases a w2) as [[Ho E]|[Ho E]];
        rewrite E; simpl.
      * exists r. repeat split; auto; intros; contradiction.
      * rewrite update_fields_lookup, (served_table_lookup _ _ _ Hk). simpl.
        destruct (decide (has_id (Transaction.transaction_id a) r)) as [Hid|Hid];
          unfold has_id in Hid.
        -- eexists. split; [reflexivity|]. simpl.
           repeat split; auto; intros; congruence.
        -- exists r. repeat split; auto; intros; congruence.
Qed.

Lemma C6_witness :
  tasks (step (Start 0) accepted_world).2 !! 0
    = Some {| task_arg := new_transaction txn_test_001 1000;
              task_state := Sleeping 1030 |} /\
  step (Wake 0) (step (Start 0) accepted_world).2
    = (None, (step (Start 0) accepted_world).2) /\
  exists r', table (step (Wake 0) slept_world).2 !! 0 = Some r' /\
             Transaction.created_at r' = 1000%Z /\
             Transaction.status r' = "PROCESSED" /\
             Transaction.processed_at r' = Some 1030%Z.
Proof.
  destruct (C6_finalization_frame accepted_world 0 (new_transaction txn_test_001 1000))
    as (_ & Hstart & _ & Hwake); [reflexivity|].
  split; [exact Hstart|]. split.
  - destruct (Hwake (step (Start 0) accepted_world).2) as [Hearly _]; [reflexivity|].
    apply Hearly. simpl. lia.
  - destruct (Hwake slept_world) as [_ Hlate]; [reflexivity|].
    destruct (Hlate ltac:(simpl; lia) 0 (new_transaction txn_test_001 1000))
      as (r' & Hk & _ & _ & _ & _ & _ & Hc & _ & _ & Hp); [reflexivity|].
    exists r'. split; [exact Hk|]. split; [exact Hc|].
    apply Hp; [simpl; discriminate | reflexivity].
Defined.

(** What does hold of a finalization attempt: no exception leaves
    [process_transaction]; when the store is unreachable an error line is
    logged, the table is left as it was, and the update is not tried again. *)
Lemma process_transaction_resume_outage a w :
  head (env w) = Some Outage ->
  (process_transaction_resume a w).1 = Return tt /\
  table (process_transaction_resume a w).2 = table w /\
  env (process_transaction_resume a w).2 = tail (env w) /\
  logs (process_transaction_resume a w).2
  = logs w ++ [(ERROR, "Error processing transaction " +:+ Transaction.transaction_id a
                       +:+ ": " +:+ str StoreUnavailable)].
Proof.
  intros H. destruct (process_transaction_resume_cases a w) as [[_ E]|[Hn _]];
    [|contradiction].
  rewrite E. done.
Qed.

(** C7: when the record has vanished, the update matches no row and comes
    back empty without raising; [process_transaction] does not look at the
    result and logs the finalization as a success; no error line is written. *)
Theorem C7_vanished_record_logged_as_success :
  update_eq "PROCESSED" 1030 "txn_test_001" vanished_world
    = (Return [], vanished_world) /\
  process_transaction_resume (new_transaction txn_test_001 1000) vanished_world
    = (Return tt,
       with_logs [(INFO, "Transaction txn_test_001 processed successfully")]
         vanished_world) /\
  (step (Wake 0) vanished_world).2
    = {| table := [];
         clock := 1030;
         env := [];
         tasks := [{| task_arg := new_transaction txn_test_001 1000;
                      task_state := Finished |}];
         logs := [(INFO, "Transaction txn_test_001 processed successfully")] |}.
Proof. repeat split. Qed.

(** ** Every way through a delivery *)

Lemma select_eq_cases id w :
  (head (env w) = Some Outage /\
   select_eq id w = (Raise StoreUnavailable, with_env (tail (env w)) w)) \/
  (head (env w) <> Some Outage /\
   select_eq id w = (Return (find_by_id id (served_table w)), settle w)).
Proof.
  unfold select_eq.
  match goal with
  | |- context [execute ?op w] =>
      destruct (execute_cases op w) as [[H E]|[H E]]; [left|right]; by split
  end.
Qed.

Lemma insert_cases r w :
  (isfinite (Transaction.amount r) = false /\
   insert r w = (Raise ValueError, w)) \/
  (isfinite (Transaction.amount r) = true /\
   head (env w) = Some Outage /\
   insert r w = (Raise StoreUnavailable, with_env (tail (env w)) w)) \/
  (isfinite (Transaction.amount r) = true /\
   head (env w) <> Some Outage /\
   find_by_id (Transaction.transaction_id r) (served_table w) <> [] /\
   insert r w = (Raise UniqueViolation, settle w)) \/
  (isfinite (Transaction.amount r) = true /\
   head (env w) <> Some Outage /\
   find_by_id (Transaction.transaction_id r) (served_table w) = [] /\
   insert r w = (Return tt, after_call (served_table w ++ [r]) w)).
Proof.
  unfold insert. destruct (isfinite (Transaction.amount r)); [right|by left].
  destruct (execute_cases (insert_if_absent r) w) as [[H E]|[H E]]; [by left|right].
  rewrite E. unfold insert_if_absent, settle.
  destruct (find_by_id _ (served_table w)) eqn:Ef; [right|left]; by repeat split.
Qed.

(** Which way a delivery takes, and what it leaves behind. *)
Lemma receive_webhook_cases d w :
  let id := WebhookRequest.transaction_id d in
  let res := receive_webhook d w in
  exists p : Path,
    match p with
    | LookupFailed =>
        head (env w) = Some Outage /\
        res.1 = Raise internal_server_error /\
        table res.2 = table w /\ tasks res.2 = tasks w /\ env res.2 = tail (env w)
    | Duplicate =>
        head (env w) <> Some Outage /\
        find_by_id id (served_table w) <> [] /\
        res.1 = Return (Response 202) /\
        table res.2 = served_table w /\ tasks res.2 = tasks w /\
        env res.2 = tail (env w)
    | InsertFailed =>
        head (env w) <> Some Outage /\
        find_by_id id (served_table w) = [] /\
        (head (env (settle w)) = Some Outage \/
         find_by_id id (served_table (settle w)) <> []) /\
        res.1 = Raise internal_server_error /\
        table res.2 = served_table (settle w) /\ tasks res.2 = tasks w /\
        env res.2 = tail (tail (env w)) /\
        isfinite (WebhookRequest.amount d) = true
    | Created =>
        head (env w) <> Some Outage /\
        find_by_id id (served_table w) = [] /\
        head (env (settle w)) <> Some Outage /\
        find_by_id id (served_table (settle w)) = [] /\
        res.1 = Return (Response 202) /\
        table res.2 = served_table (settle w) ++ [new_transaction d (clock w)] /\
        tasks res.2 = tasks w ++ [queued (new_transaction d (clock w))] /\
        env res.2 = tail (tail (env w)) /\
        isfinite (WebhookRequest.amount d) = true
    | Unencodable =>
        head (env w) <> Some Outage /\
        (find_by_id id (served_table w) = [] /\
         isfinite (WebhookRequest.amount d) = false) /\
        res.1 = Raise internal_server_error /\
        table res.2 = served_table w /\ tasks res.2 = tasks w /\
        env res.2 = tail (env w)
    end.
Proof.
  intros id res. subst res.
  destruct (select_eq_cases id w) as [[H E]|[H E]].
  { exists LookupFailed. rewrite (receive_webhook_lookup_raises _ _ _ _ E). done. }
  destruct (find_by_id id (served_table w)) as [|r rows] eqn:Ef.
  2: { exists Duplicate. rewrite (receive_webhook_duplicate _ _ _ _ _ E). done. }
  destruct (insert_cases (new_transaction d (clock (settle w))) (settle w))
    as [[F E2]|[(F & H2 & E2)|[(F & H2 & F2 & E2)|(F & H2 & F2 & E2)]]].
  - exists Unencodable. rewrite (receive_webhook_insert_raises _ _ _ _ _ E E2).
    simpl in *. repeat split; auto.
  - exists InsertFailed. rewrite (receive_webhook_insert_raises _ _ _ _ _ E E2).
    simpl in *. repeat split; auto. by rewrite (served_table_outage (settle w)).
  - exists InsertFailed. rewrite (receive_webhook_insert_raises _ _ _ _ _ E E2).
    simpl in *. repeat split; auto.
  - exists Created. rewrite (receive_webhook_created _ _ _ _ E E2).
    simpl in *. repeat split; auto.
Qed.

(** ** Validation *)




(** ** What the server ever writes *)

Lemma interfere_writes i now t : writes t (interfere i now t).
Proof.
  destruct (interfere_cases i now t) as [->|(d & _ & Hd & ->)];
    [apply writes_none | by apply writes_create].
Qed.

Lemma served_table_writes w : writes (table w) (served_table w).
Proof. apply interfere_writes. Qed.

Lemma settle_writes w : writes (table w) (served_table (settle w)).
Proof.
  eapply writes_then; [apply served_table_writes|].
  apply (served_table_writes (settle w)).
Qed.

Lemma receive_webhook_writes d w : writes (table w) (table (receive_webhook d w).2).
Proof.
  destruct (receive_webhook_cases d w) as [[] H]; simpl in H.
  - destruct H as (_ & _ & -> & _). apply writes_none.
  - destruct H as (_ & _ & _ & -> & _). apply served_table_writes.
  - destruct H as (_ & _ & _ & _ & -> & _). apply settle_writes.
  - destruct H as (_ & _ & _ & Hf & _ & -> & _).
    eapply writes_then; [apply settle_writes|]. by apply writes_create.
  - destruct H as (_ & _ & _ & -> & _). apply served_table_writes.
Qed.

Lemma process_transaction_resume_writes a w :
  writes (table w) (table (process_transaction_resume a w).2).
Proof.
  destruct (process_transaction_resume_cases a w) as [[_ E]|[_ E]]; rewrite E; simpl.
  - apply writes_none.
  - eapply writes_then; [apply served_table_writes | apply writes_finalize].
Qed.

Lemma get_endpoint_frame id w :
  get_endpoint id w = (no_route, w) \/
  (table (get_endpoint id w).2 = served_table w /\
   tasks (get_endpoint id w).2 = tasks w /\
   clock (get_endpoint id w).2 = clock w /\
   env (get_endpoint id w).2 = tail (env w)).
Proof.
  unfold get_endpoint. destruct (routable id); [right|by left].
  unfold get_transaction, try_except, bind.
  destruct (select_eq_cases id w) as [[H E]|[H E]]; rewrite E; simpl.
  - by rewrite served_table_outage.
  - by destruct (find_by_id id (served_table w)).
Qed.

Lemma step_writes e w : writes (table w) (table (step e w).2).
Proof.
  destruct e as [body|id|i|i|d]; simpl.
  - unfold post_webhook. destruct (WebhookRequest_validate body) as [d|];
      [|apply writes_none].
    pose proof (receive_webhook_writes d w) as H.
    by destruct (receive_webhook d w).
  - destruct (get_endpoint_frame id w) as [E|[H _]].
    + rewrite E. apply writes_none.
    + destruct (get_endpoint id w). simpl in *. rewrite H. apply served_table_writes.
  - destruct (tasks w !! i) as [[a []]|]; apply writes_none.
  - destruct (tasks w !! i) as [[a [|wake|]]|]; try apply writes_none.
    destruct (wake <=? clock w)%Z; [|apply writes_none].
    pose proof (process_transaction_resume_writes a w) as H.
    by destruct (process_transaction_resume a w).
  - destruct (0 <=? d)%Z; apply writes_none.
Qed.

Lemma run_cons e evs w : (run (e :: evs) w).2 = (run evs (step e w).2).2.
Proof. cbn [run]. destruct (step e w) as [o w1]. simpl. by destruct (run evs w1). Qed.

Lemma run_app evs1 evs2 w :
  (run (evs1 ++ evs2) w).2 = (run evs2 (run evs1 w).2).2.
Proof.
  revert w. induction evs1 as [|e evs1 IH]; intros w; [done|].
  rewrite <- app_comm_cons, !run_cons. apply IH.
Qed.

Lemma run_snoc evs e w : (run (evs ++ [e]) w).2 = (step e (run evs w).2).2.
Proof.
  rewrite run_app. apply (run_cons e []).
Qed.

Lemma run_writes evs w : writes (table w) (table (run evs w).2).
Proof.
  revert w. induction evs as [|e evs IH]; intros w; [apply writes_none|].
  rewrite run_cons. eapply writes_then; [apply step_writes | apply IH].
Qed.

(** ** [processed_at] and [status] go together *)

Lemma writes_stamped t t' :
  writes t t' -> Forall stamped_iff_processed t -> Forall stamped_iff_processed t'.
Proof.
  induction 1 as [t|t d now Hd|t id now|t1 t2 t3 _ IH1 _ IH2]; intros Hall; auto.
  - apply Forall_app. split; [done|]. apply Forall_singleton.
    unfold stamped_iff_processed. simpl. split; [done|discriminate].
  - unfold update_fields. apply Forall_fmap. eapply Forall_impl; [|exact Hall].
    intros r Hr. simpl. destruct (decide _); [|done].
    unfold stamped_iff_processed. simpl. split; [done|discriminate].
Qed.

(** C5: in every state reached from start-up by any sequence of deliveries,
    queries, task starts, task resumptions and clock ticks, under any pattern
    of store outages and sibling admissions, every stored record has a
    non-null [processed_at] if and only if its status is PROCESSED. *)
Theorem C5_processed_at_iff_processed (env0 : list Interference) (clock0 : Z)
    (evs : list Event) (r : Transaction.t) :
  r ∈ table (run evs (boot env0 clock0)).2 ->
  Transaction.processed_at r <> None <-> Transaction.status r = "PROCESSED".
Proof.
  intros Hr.
  assert (Forall stamped_iff_processed (table (run evs (boot env0 clock0)).2)) as Hall.
  { eapply writes_stamped; [apply run_writes|]. simpl. constructor. }
  rewrite Forall_forall in Hall. apply Hall. by apply list_elem_of_In.
Qed.

Lemma C5_witness :
  (Transaction.processed_at (new_transaction txn_test_001 1000) <> None
   <-> Transaction.status (new_transaction txn_test_001 1000) = "PROCESSED") /\
  (Transaction.processed_at (apply_update "PROCESSED" 1030 (new_transaction txn_test_001 1000))
     <> None
   <-> Transaction.status (apply_update "PROCESSED" 1030 (new_transaction txn_test_001 1000))
       = "PROCESSED").
Proof.
  split.
  - apply (C5_processed_at_iff_processed [] 1000 [Post (to_body txn_test_001)]).
    vm_compute. left.
  - apply (C5_processed_at_iff_processed [] 1000
             [Post (to_body txn_test_001); Start 0; Tick 30; Wake 0]).
    vm_compute. left.
Defined.

(** ** The lifecycle of a record *)

Lemma writes_valid_status t t' :
  writes t t' -> Forall valid_status t -> Forall valid_status t'.
Proof.
  induction 1 as [t|t d now Hd|t id now|t1 t2 t3 _ IH1 _ IH2]; intros Hall; auto.
  - apply Forall_app. split; [done|]. apply Forall_singleton. by left.
  - unfold update_fields. apply Forall_fmap. eapply Forall_impl; [|exact Hall].
    intros r Hr. simpl. destruct (decide _); [by right|done].
Qed.

Lemma writes_lifecycle t t' :
  writes t t' ->
  forall k r, t !! k = Some r ->
    exists r', t' !! k = Some r' /\
      Transaction.transaction_id r' = Transaction.transaction_id r /\
      (Transaction.status r' = Transaction.status r \/
       Transaction.status r' = "PROCESSED").
Proof.
  induction 1 as [t|t d now Hd|t id now|t1 t2 t3 _ IH1 _ IH2]; intros k r Hk.
  - exists r. auto.
  - exists r. split; [by apply lookup_app_l_Some|auto].
  - rewrite update_fields_lookup, Hk. simpl.
    destruct (decide _); eexists; (split; [reflexivity|]); simpl; auto.
  - destruct (IH1 k r Hk) as (r2 & Hk2 & Hid2 & Hs2).
    destruct (IH2 k r2 Hk2) as (r3 & Hk3 & Hid3 & Hs3).
    exists r3. split; [done|]. split; [congruence|].
    destruct Hs3 as [Hs3|Hs3]; [|by right]. rewrite Hs3. exact Hs2.
Qed.

Lemma writes_keeps_ids t t' id :
  writes t t' -> find_by_id id t <> [] -> find_by_id id t' <> [].
Proof.
  induction 1 as [t|t d now Hd|t id' now|t1 t2 t3 _ IH1 _ IH2]; intros Hne; auto.
  - rewrite find_by_id_app. by destruct (find_by_id id t).
  - intros E. apply Hne. apply length_zero_iff_nil.
    rewrite <- (find_by_id_update_length id id' "PROCESSED" now t), E. reflexivity.
Qed.

Lemma task_arg_set_task_state i s w :
  task_arg <$> tasks (set_task_state i s w) = task_arg <$> tasks w.
Proof.
  unfold set_task_state. simpl. generalize (tasks w). intros l. revert i.
  induction l as [|t l IH]; intros [|i]; simpl; try done. f_equal. apply IH.
Qed.

Lemma step_Start_cases i w :
  (step (Start i) w).2 = w \/
  exists a, (step (Start i) w).2
            = set_task_state i (Sleeping (clock w + DELAY))
                (process_transaction_start a w).2.
Proof.
  simpl. destruct (tasks w !! i) as [[a []]|]; auto. right. by exists a.
Qed.

Lemma step_Wake_cases i w :
  (step (Wake i) w).2 = w \/
  exists a, a ∈ task_arg <$> tasks w /\
            (step (Wake i) w).2
            = set_task_state i Finished (process_transaction_resume a w).2.
Proof.
  simpl. destruct (tasks w !! i) as [[a [|wake|]]|] eqn:Hi; auto.
  destruct (wake <=? clock w)%Z; auto. right. exists a. split.
  - apply list_elem_of_fmap. eexists. split; [|by eapply list_elem_of_lookup_2].
    reflexivity.
  - by destruct (process_transaction_resume a w).
Qed.

Lemma step_Post_valid body d w :
  WebhookRequest_validate body = Some d ->
  (step (Post body) w).2 = (receive_webhook d w).2.
Proof.
  intros Hv. simpl. rewrite (post_webhook_valid _ _ _ Hv). reflexivity.
Qed.

Lemma step_Post_invalid body w :
  WebhookRequest_validate body = None -> (step (Post body) w).2 = w.
Proof. intros Hv. simpl. unfold post_webhook. by rewrite Hv. Qed.

Lemma step_Get id w : (step (Get id) w).2 = (get_endpoint id w).2.
Proof. simpl. by destruct (get_endpoint id w). Qed.

Lemma step_Tick d w : (step (Tick d) w).2 = w \/ (step (Tick d) w).2 = with_clock (clock w + d) w.
Proof. simpl. destruct (0 <=? d)%Z; auto. Qed.

Lemma step_task_args e w a :
  a ∈ task_arg <$> tasks (step e w).2 ->
  a ∈ task_arg <$> tasks w \/
  find_by_id (Transaction.transaction_id a) (table (step e w).2) <> [].
Proof.
  destruct e as [body|id|i|i|d].
  - destruct (WebhookRequest_validate body) as [d|] eqn:Hv.
    2: { rewrite (step_Post_invalid _ _ Hv). auto. }
    rewrite (step_Post_valid _ _ _ Hv).
    destruct (receive_webhook_cases d w) as [[] H]; simpl in H.
    + destruct H as (_ & _ & _ & -> & _). auto.
    + destruct H as (_ & _ & _ & _ & -> & _). auto.
    + destruct H as (_ & _ & _ & _ & _ & -> & _). auto.
    + destruct H as (_ & _ & _ & _ & _ & -> & -> & _).
      rewrite fmap_app. intros [Ha|Ha]%elem_of_app; [by left|right].
      simpl in Ha. apply list_elem_of_singleton in Ha as ->.
      rewrite find_by_id_app. unfold find_by_id at 2.
      rewrite filter_cons_True by reflexivity.
      by destruct (find_by_id _ (served_table (settle w))).
    + destruct H as (_ & _ & _ & _ & -> & _). auto.
  - rewrite step_Get. destruct (get_endpoint_frame id w) as [->|(_ & -> & _)]; auto.
  - destruct (step_Start_cases i w) as [->|(a' & ->)]; [auto|].
    rewrite task_arg_set_task_state. auto.
  - destruct (step_Wake_cases i w) as [->|(a' & _ & ->)]; [auto|].
    rewrite task_arg_set_task_state.
    destruct (process_transaction_resume_cases a' w) as [[_ E]|[_ E]]; rewrite E; auto.
  - destruct (step_Tick d w) as [->| ->]; auto.
Qed.

Lemma step_known e w : known w -> known (step e w).2.
Proof.
  intros Hk a Ha. destruct (step_task_args e w a Ha) as [Hold|Hnew]; [|done].
  eapply writes_keeps_ids; [apply step_writes | by apply Hk].
Qed.

Lemma run_known evs w : known w -> known (run evs w).2.
Proof.
  revert w. induction evs as [|e evs IH]; intros w Hk; [done|].
  rewrite run_cons. apply IH. by apply step_known.
Qed.

Lemma boot_known env0 clock0 : known (boot env0 clock0).
Proof. intros a Ha. simpl in Ha. by apply not_elem_of_nil in Ha. Qed.

Lemma grows_refl t : grows t t.
Proof. exists []. split; [by rewrite app_nil_r | constructor]. Qed.

Lemma grows_trans t1 t2 t3 : grows t1 t2 -> grows t2 t3 -> grows t1 t3.
Proof.
  intros (n1 & -> & H1) (n2 & -> & H2). exists (n1 ++ n2).
  split; [by rewrite app_assoc | by apply Forall_app].
Qed.

Lemma grows_create t d now : grows t (t ++ [new_transaction d now]).
Proof. exists [new_transaction d now]. split; [done|]. by apply Forall_singleton. Qed.

Lemma served_table_grows w : grows (table w) (served_table w).
Proof.
  unfold served_table.
  destruct (interfere_cases (default Quiet (head (env w))) (clock w) (table w))
    as [->|(d & _ & _ & ->)]; [apply grows_refl | apply grows_create].
Qed.

Lemma grows_new_row t t' k r :
  grows t t' -> t !! k = None -> t' !! k = Some r -> fresh r.
Proof.
  intros (news & -> & Hall) Hnone Hk.
  apply lookup_ge_None in Hnone. rewrite lookup_app_r in Hk by done.
  apply list_elem_of_lookup_2 in Hk. rewrite Forall_forall in Hall.
  apply Hall. by apply list_elem_of_In.
Qed.

Lemma receive_webhook_grows d w : grows (table w) (table (receive_webhook d w).2).
Proof.
  assert (grows (table w) (served_table (settle w))) as Hs.
  { eapply grows_trans; [apply served_table_grows|].
    apply (served_table_grows (settle w)). }
  destruct (receive_webhook_cases d w) as [[] H]; simpl in H.
  - destruct H as (_ & _ & -> & _). apply grows_refl.
  - destruct H as (_ & _ & _ & -> & _). apply served_table_grows.
  - destruct H as (_ & _ & _ & _ & -> & _). exact Hs.
  - destruct H as (_ & _ & _ & _ & _ & -> & _).
    eapply grows_trans; [exact Hs | apply grows_create].
  - destruct H as (_ & _ & _ & -> & _). apply served_table_grows.
Qed.

(** In a state where every task's record is in the table, whatever row a
    step adds is added as [new_transaction] makes it. *)
Lemma step_new_row e w k r :
  known w -> table w !! k = None -> table (step e w).2 !! k = Some r -> fresh r.
Proof.
  intros Hknown Hnone. destruct e as [body|id|i|i|d].
  - destruct (WebhookRequest_validate body) as [d|] eqn:Hv.
    + rewrite (step_Post_valid _ _ _ Hv). eapply grows_new_row; [|done].
      apply receive_webhook_grows.
    + rewrite (step_Post_invalid _ _ Hv). congruence.
  - rewrite step_Get. destruct (get_endpoint_frame id w) as [->|(-> & _)];
      [simpl; congruence|].
    eapply grows_new_row; [|done]. apply served_table_grows.
  - destruct (step_Start_cases i w) as [->|(a' & ->)]; simpl; congruence.
  - destruct (step_Wake_cases i w) as [->|(a & Ha & ->)]; [congruence|].
    destruct (process_transaction_resume_cases a w) as [[_ E]|[_ E]]; rewrite E;
      simpl; [congruence|].
    rewrite update_fields_lookup. unfold served_table.
    destruct (interfere_cases (default Quiet (head (env w))) (clock w) (table w))
      as [->|(d & _ & Hd & ->)]; [by rewrite Hnone|].
    apply lookup_ge_None in Hnone. rewrite lookup_app_r by done.
    destruct (k - length (table w)) as [|n]; simpl; [|done].
    destruct (decide (has_id (Transaction.transaction_id a) (new_transaction d (clock w))))
      as [Hid|Hid]; [|by intros [= <-]].
    unfold has_id in Hid. simpl in Hid. rewrite Hid in Hd.
    by destruct (Hknown a Ha).
  - destruct (step_Tick d w) as [->| ->]; simpl; congruence.
Qed.

(** C4: take any state reached from start-up.  A record that a further
    operation adds to the table is added with status PROCESSING and no
    [processed_at].  A record that is in the table has status PROCESSING or
    PROCESSED, and after any further sequence of operations it is still at its
    place under the same id with either the status it had or, if that was
    PROCESSING, PROCESSED; a PROCESSED record stays PROCESSED. *)
Theorem C4_status_lifecycle (env0 : list Interference) (clock0 : Z) (evs : list Event) :
  (forall (e : Event) (k : nat) (r' : Transaction.t),
     table (run evs (boot env0 clock0)).2 !! k = None ->
     table (step e (run evs (boot env0 clock0)).2).2 !! k = Some r' ->
     Transaction.status r' = "PROCESSING" /\ Transaction.processed_at r' = None) /\
  (forall (evs' : list Event) (k : nat) (r : Transaction.t),
     table (run evs (boot env0 clock0)).2 !! k = Some r ->
     (Transaction.status r = "PROCESSING" \/ Transaction.status r = "PROCESSED") /\
     exists r', table (run evs' (run evs (boot env0 clock0)).2).2 !! k = Some r' /\
       Transaction.transaction_id r' = Transaction.transaction_id r /\
       (Transaction.status r' = Transaction.status r \/
        (Transaction.status r = "PROCESSING" /\ Transaction.status r' = "PROCESSED")) /\
       (Transaction.status r = "PROCESSED" -> Transaction.status r' = "PROCESSED")).
Proof.
  split.
  - intros e k r' Hnone Hk. eapply step_new_row; [|exact Hnone|exact Hk].
    apply run_known, boot_known.
  - intros evs' k r Hk.
    assert (valid_status r) as Hv.
    { assert (Forall valid_status (table (run evs (boot env0 clock0)).2)) as Hall.
      { eapply writes_valid_status; [apply run_writes|]. simpl. constructor. }
      rewrite Forall_forall in Hall. apply Hall, list_elem_of_In.
      by eapply list_elem_of_lookup_2. }
    split; [exact Hv|].
    destruct (writes_lifecycle _ _ (run_writes evs' _) k r Hk) as (r' & Hk' & Hid & Hs).
    exists r'. split; [done|]. split; [done|]. split.
    + destruct Hs as [Hs|Hs]; [by left|].
      destruct Hv as [Hv|Hv]; [by right | left; congruence].
    + intros Hp. destruct Hs as [Hs|Hs]; congruence.
Qed.

Lemma C4_witness :
  (exists r', table (run [Start 0; Tick 30; Wake 0; Post (to_body txn_test_001)]
                       (run [Post (to_body txn_test_001)] (boot [] 1000)).2).2 !! 0
              = Some r' /\
              Transaction.transaction_id r' = "txn_test_001" /\
              Transaction.status r' = "PROCESSED") /\
  Transaction.status (new_transaction txn_test_001 1000) = "PROCESSING".
Proof.
  destruct (C4_status_lifecycle [] 1000 [Post (to_body txn_test_001)])
    as [_ Hold].
  destruct (C4_status_lifecycle [] 1000 []) as [Hnew _].
  split.
  - destruct (Hold [Start 0; Tick 30; Wake 0; Post (to_body txn_test_001)] 0
                (new_transaction txn_test_001 1000))
      as (_ & r' & Hk & Hid & _ & _); [reflexivity|].
    exists r'. split; [exact Hk|]. split; [exact Hid|].
    vm_compute in Hk. injection Hk as <-. reflexivity.
  - apply (Hnew (Post (to_body txn_test_001)) 0 (new_transaction txn_test_001 1000)
             ltac:(reflexivity) ltac:(reflexivity)).
Defined.

(** ** Exactly once *)

Lemma receive_webhook_calm d w :
  env w = [] ->
  env (receive_webhook d w).2 = [] /\
  ((find_by_id (WebhookRequest.transaction_id d) (table w) <> [] /\
    (receive_webhook d w).1 = Return (Response 202) /\
    table (receive_webhook d w).2 = table w /\
    tasks (receive_webhook d w).2 = tasks w) \/
   (find_by_id (WebhookRequest.transaction_id d) (table w) = [] /\
    isfinite (WebhookRequest.amount d) = true /\
    (receive_webhook d w).1 = Return (Response 202) /\
    table (receive_webhook d w).2 = table w ++ [new_transaction d (clock w)] /\
    tasks (receive_webhook d w).2 = tasks w ++ [queued (new_transaction d (clock w))]) \/
   (find_by_id (WebhookRequest.transaction_id d) (table w) = [] /\
    isfinite (WebhookRequest.amount d) = false /\
    (receive_webhook d w).1 = Raise internal_server_error /\
    table (receive_webhook d w).2 = table w /\
    tasks (receive_webhook d w).2 = tasks w)).
Proof.
  intros Hcalm.
  assert (served_table w = table w) as Hs by (by apply served_table_calm).
  assert (env (settle w) = []) as Hcalm2 by (simpl; by rewrite Hcalm).
  assert (served_table (settle w) = table w) as Hs2.
  { rewrite served_table_calm by done. simpl. exact Hs. }
  destruct (receive_webhook_cases d w) as [[] H]; simpl in H.
  - destruct H as (Ho & _). rewrite Hcalm in Ho. discriminate.
  - destruct H as (_ & Hf & -> & -> & -> & ->). rewrite Hs in *. rewrite Hcalm.
    split; [done|]. by left.
  - destruct H as (_ & Hf & [Ho|Hf2] & _).
    + simpl in Ho. rewrite Hcalm in Ho. discriminate.
    + rewrite Hs2 in Hf2. rewrite Hs in Hf. contradiction.
  - destruct H as (_ & Hf & _ & _ & -> & -> & -> & -> & Hfin).
    rewrite Hs in Hf. rewrite Hs2, Hcalm. split; [done|]. right. by left.
  - destruct H as (_ & [Hf Hfin] & -> & -> & -> & ->).
    rewrite Hs in *. rewrite Hcalm. split; [done|]. right. by right.
Qed.

Lemma tasks_of_app id q1 q2 : tasks_of id (q1 ++ q2) = tasks_of id q1 ++ tasks_of id q2.
Proof. apply list.filter_app. Qed.

Lemma tasks_of_set_task_state id i s w :
  length (tasks_of id (tasks (set_task_state i s w))) = length (tasks_of id (tasks w)).
Proof.
  unfold set_task_state, tasks_of. simpl. generalize (tasks w). intros l. revert i.
  induction l as [|t l IH]; intros [|i]; simpl; try done.
  - rewrite !filter_cons. simpl. by destruct (decide _).
  - rewrite !filter_cons. destruct (decide _); [rewrite !length_cons; f_equal|]; apply IH.
Qed.

Lemma find_by_id_new id d now :
  find_by_id id [new_transaction d now]
  = if bool_decide (WebhookRequest.transaction_id d = id)
    then [new_transaction d now] else [].
Proof.
  unfold find_by_id. rewrite filter_cons, filter_nil. unfold has_id. simpl.
  destruct (decide _) as [H|H]; [by rewrite bool_decide_true|by rewrite bool_decide_false].
Qed.

Lemma tasks_of_new id d now :
  tasks_of id [queued (new_transaction d now)]
  = if bool_decide (WebhookRequest.transaction_id d = id)
    then [queued (new_transaction d now)] else [].
Proof.
  unfold tasks_of. rewrite filter_cons, filter_nil. unfold has_id. simpl.
  destruct (decide _) as [H|H]; [by rewrite bool_decide_true|by rewrite bool_decide_false].
Qed.

Lemma once_step evs e w : once evs w -> once (evs ++ [e]) (step e w).2.
Proof.
  intros [Hcalm Hcount].
  assert (served_table w = table w) as Hs by (by apply served_table_calm).
  assert (forall id, delivers id e = false ->
            existsb (delivers id) (evs ++ [e]) = existsb (delivers id) evs) as Hnot.
  { intros id Hd. rewrite existsb_app. simpl. rewrite Hd. by rewrite !orb_false_r. }
  destruct e as [body|id'|i|i|d].
  - destruct (WebhookRequest_validate body) as [d|] eqn:Hv.
    2: { rewrite (step_Post_invalid _ _ Hv). split; [done|]. intros id.
         rewrite Hnot; [apply Hcount|]. simpl. by rewrite Hv. }
    rewrite (step_Post_valid _ _ _ Hv).
    destruct (receive_webhook_calm d w Hcalm) as (He & Hwhich).
    split; [done|]. intros id. rewrite existsb_app. simpl. rewrite Hv, orb_false_r.
    destruct (Hcount id) as [Hr Ht].
    destruct (Hcount (WebhookRequest.transaction_id d)) as [Hrd Htd].
    destruct Hwhich as [(Hf & _ & -> & ->)|[(Hf & Hfin & _ & -> & ->)|
                                            (Hf & Hfin & _ & -> & ->)]].
    + rewrite Hr, Ht.
      destruct (bool_decide_reflect (WebhookRequest.transaction_id d = id)) as [<-|Hne];
        [|by rewrite orb_false_r].
      destruct (existsb _ evs); [done|].
      apply length_zero_iff_nil in Hrd. contradiction.
    + rewrite find_by_id_app, tasks_of_app, !length_app, Hr, Ht.
      rewrite find_by_id_new, tasks_of_new, Hfin, andb_true_r.
      destruct (bool_decide_reflect (WebhookRequest.transaction_id d = id)) as [<-|Hne].
      * rewrite Hf in Hrd. simpl in Hrd.
        destruct (existsb _ evs); [discriminate|done].
      * rewrite orb_false_r. simpl. lia.
    + by rewrite Hfin, andb_false_r, orb_false_r.
  - rewrite step_Get. unfold once.
    destruct (get_endpoint_frame id' w) as [->|(-> & -> & _ & ->)].
    { simpl. split; [done|]. intros id. rewrite Hnot by done. apply Hcount. }
    rewrite Hs, Hcalm. split; [done|]. intros id. rewrite Hnot by done. apply Hcount.
  - split.
    + destruct (step_Start_cases i w) as [->|(a & ->)]; done.
    + intros id. rewrite Hnot by done.
      destruct (step_Start_cases i w) as [->|(a & ->)]; [apply Hcount|].
      rewrite tasks_of_set_task_state. apply Hcount.
  - destruct (step_Wake_cases i w) as [->|(a & _ & ->)].
    { split; [done|]. intros id. rewrite Hnot by done. apply Hcount. }
    destruct (process_transaction_resume_cases a w) as [[Ho _]|[_ E]].
    { rewrite Hcalm in Ho. discriminate. }
    split; [rewrite E; simpl; by rewrite Hcalm|]. intros id. rewrite Hnot by done.
    rewrite tasks_of_set_task_state, E. simpl.
    rewrite find_by_id_update_length, Hs. apply Hcount.
  - split.
    + destruct (step_Tick d w) as [->| ->]; done.
    + intros id. rewrite Hnot by done.
      destruct (step_Tick d w) as [->| ->]; apply Hcount.
Qed.

Lemma once_run evs clock0 : once evs (run evs (boot [] clock0)).2.
Proof.
  induction evs as [|e evs IH] using rev_ind.
  - split; [done|]. by intros id.
  - rewrite run_snoc. by apply once_step.
Qed.



(** * Further properties of the handlers *)

(** ** One record per id *)

Lemma ids_update_fields id s p t :
  Transaction.transaction_id <$> update_fields id (apply_update s p) t
  = Transaction.transaction_id <$> t.
Proof.
  unfold update_fields. rewrite <- list_fmap_compose. apply list_fmap_ext.
  intros k r _. simpl. by destruct (decide _).
Qed.

Lemma writes_unique_ids t t' :
  writes t t' ->
  NoDup (Transaction.transaction_id <$> t) -> NoDup (Transaction.transaction_id <$> t').
Proof.
  induction 1 as [t|t d now Hd|t id now|t1 t2 t3 _ IH1 _ IH2]; intros Hnd; auto.
  - rewrite fmap_app. apply list.NoDup_app. split; [done|]. split.
    + intros x Hx Hx'. simpl in Hx'. apply list_elem_of_singleton in Hx' as ->.
      apply list_elem_of_fmap in Hx as (r & Hid & Hr).
      rewrite find_by_id_nil in Hd. by apply (Hd r Hr).
    + apply NoDup_singleton.
  - by rewrite ids_update_fields.
Qed.

(** X1: in every state reached from start-up, whatever the store outages and
    whatever sibling processes create in between, no two rows of the table
    carry the same [transaction_id]. *)
Theorem X1_transaction_ids_unique (env0 : list Interference) (clock0 : Z)
    (evs : list Event) :
  NoDup (Transaction.transaction_id <$> table (run evs (boot env0 clock0)).2).
Proof.
  eapply writes_unique_ids; [apply run_writes|]. simpl. constructor.
Qed.

(** ** What no operation rewrites *)

Lemma same_payload_refl r : same_payload r r.
Proof. by repeat split. Qed.

Lemma same_payload_trans r1 r2 r3 :
  same_payload r1 r2 -> same_payload r2 r3 -> same_payload r1 r3.
Proof. unfold same_payload. intros H1 H2. repeat split; intuition congruence. Qed.

Lemma writes_payload t t' :
  writes t t' ->
  forall k r, t !! k = Some r -> exists r', t' !! k = Some r' /\ same_payload r r'.
Proof.
  induction 1 as [t|t d now Hd|t id now|t1 t2 t3 _ IH1 _ IH2]; intros k r Hk.
  - exists r. split; [done|apply same_payload_refl].
  - exists r. split; [by apply lookup_app_l_Some|apply same_payload_refl].
  - rewrite update_fields_lookup, Hk. simpl.
    destruct (decide _); eexists; (split; [reflexivity|]); by repeat split.
  - destruct (IH1 k r Hk) as (r2 & Hk2 & H12).
    destruct (IH2 k r2 Hk2) as (r3 & Hk3 & H23).
    exists r3. split; [done|]. by eapply same_payload_trans.
Qed.

(** X2: a record, once in the table, is never deleted or moved, and no
    sequence of deliveries, queries, task runs and clock ticks, under any store
    behaviour, changes its [transaction_id], [source_account],
    [destination_account], [amount], [currency] or [created_at]. *)
Theorem X2_record_payload_is_immutable (w : World) (evs : list Event) (k : nat)
    (r : Transaction.t) :
  table w !! k = Some r ->
  exists r', table (run evs w).2 !! k = Some r' /\
    Transaction.transaction_id r' = Transaction.transaction_id r /\
    Transaction.source_account r' = Transaction.source_account r /\
    Transaction.destination_account r' = Transaction.destination_account r /\
    Transaction.amount r' = Transaction.amount r /\
    Transaction.currency r' = Transaction.currency r /\
    Transaction.created_at r' = Transaction.created_at r.
Proof.
  intros Hk. destruct (writes_payload _ _ (run_writes evs w) k r Hk) as (r' & Hk' & H).
  exists r'. split; [exact Hk' | exact H].
Qed.

Lemma X2_witness :
  exists r', table (run [Start 0; Tick 30; Wake 0; Post (to_body conflicting_txn_test_001)]
                      accepted_world).2 !! 0 = Some r' /\
             Transaction.source_account r' = "acc_user_001" /\
             Transaction.created_at r' = 1000%Z.
Proof.
  destruct (X2_record_payload_is_immutable accepted_world
              [Start 0; Tick 30; Wake 0; Post (to_body conflicting_txn_test_001)] 0
              (new_transaction txn_test_001 1000))
    as (r' & Hk & _ & Hs & _ & _ & _ & Hc); [reflexivity|].
  exists r'. split; [exact Hk|]. split; [exact Hs | exact Hc].
Defined.

(** ** Answers and log lines *)

Lemma receive_webhook_effects d w :
  clock (receive_webhook d w).2 = clock w /\
  exists line, logs (receive_webhook d w).2 = logs w ++ [line] /\
    (((receive_webhook d w).1 = Return (Response 202) /\ line.1 = INFO) \/
     ((receive_webhook d w).1 = Raise internal_server_error /\ line.1 = ERROR)).
Proof.
  destruct (select_eq_cases (WebhookRequest.transaction_id d) w) as [[H E]|[H E]].
  { rewrite (receive_webhook_lookup_raises _ _ _ _ E). simpl.
    split; [done|]. eexists. split; [reflexivity|]. right. done. }
  destruct (find_by_id (WebhookRequest.transaction_id d) (served_table w))
    as [|r rows] eqn:Ef.
  2: { rewrite (receive_webhook_duplicate _ _ _ _ _ E). simpl.
       split; [done|]. eexists. split; [reflexivity|]. left. done. }
  destruct (insert_cases (new_transaction d (clock (settle w))) (settle w))
    as [[_ E2]|[(_ & _ & E2)|[(_ & _ & _ & E2)|(_ & _ & _ & E2)]]].
  - rewrite (receive_webhook_insert_raises _ _ _ _ _ E E2). simpl.
    split; [done|]. eexists. split; [reflexivity|]. right. done.
  - rewrite (receive_webhook_insert_raises _ _ _ _ _ E E2). simpl.
    split; [done|]. eexists. split; [reflexivity|]. right. done.
  - rewrite (receive_webhook_insert_raises _ _ _ _ _ E E2). simpl.
    split; [done|]. eexists. split; [reflexivity|]. right. done.
  - rewrite (receive_webhook_created _ _ _ _ E E2). simpl.
    split; [done|]. eexists. split; [reflexivity|]. left. done.
Qed.

(** X3: the webhook endpoint has exactly three answers.  A body that does not
    validate gets 422 and no log line.  A body that validates gets either 202
    with an empty body and one INFO line, or 500 "Internal server error" and
    one ERROR line; nothing else is ever answered or logged, and the clock is
    not touched. *)
Theorem X3_webhook_answers (body : JsonBody.t) (w : World) :
  clock (post_webhook body w).2 = clock w /\
  ((WebhookRequest_validate body = None /\
    (post_webhook body w).1 = {| status_code := 422; content := ValidationErrors |} /\
    logs (post_webhook body w).2 = logs w) \/
   (WebhookRequest_validate body <> None /\
    (post_webhook body w).1 = Response 202 /\
    exists msg, logs (post_webhook body w).2 = logs w ++ [(INFO, msg)]) \/
   (WebhookRequest_validate body <> None /\
    (post_webhook body w).1
      = {| status_code := 500; content := Detail "Internal server error" |} /\
    exists msg, logs (post_webhook body w).2 = logs w ++ [(ERROR, msg)])).
Proof.
  destruct (WebhookRequest_validate body) as [d|] eqn:Hv.
  - rewrite (post_webhook_valid _ _ _ Hv).
    destruct (receive_webhook_effects d w) as (Hc & [lvl msg] & Hl & Hwhich).
    split; [done|]. right. simpl in Hwhich.
    destruct Hwhich as [[-> ->]|[-> ->]]; [left|right];
      (split; [done|]); (split; [done|]); by exists msg.
  - unfold post_webhook. rewrite Hv. split; [done|]. by left.
Qed.

(** X4: a 202 is always backed by a record: whenever the webhook endpoint
    answers 202, under any store behaviour, the table afterwards holds a row
    with the delivered [transaction_id]. *)
Theorem X4_accepted_is_stored (body : JsonBody.t) (d : WebhookRequest.t) (w : World) :
  WebhookRequest_validate body = Some d ->
  status_code (post_webhook body w).1 = 202%Z ->
  find_by_id (WebhookRequest.transaction_id d) (table (post_webhook body w).2) <> [].
Proof.
  intros Hv. rewrite (post_webhook_valid _ _ _ Hv). cbn [fst snd].
  destruct (receive_webhook_cases d w) as [[] H]; simpl in H.
  - destruct H as (_ & -> & _). simpl. discriminate.
  - destruct H as (_ & Hf & _ & -> & _). done.
  - destruct H as (_ & _ & _ & -> & _). simpl. discriminate.
  - destruct H as (_ & _ & _ & _ & _ & -> & _). intros _.
    rewrite find_by_id_app, find_by_id_new, bool_decide_true by done.
    by destruct (find_by_id _ (served_table (settle w))).
  - destruct H as (_ & _ & -> & _). simpl. discriminate.
Qed.

Lemma X4_witness :
  find_by_id "txn_test_001"
    (table (post_webhook (to_body txn_test_001) (boot [Rival txn_test_001] 1000)).2)
  <> [].
Proof.
  apply (X4_accepted_is_stored (to_body txn_test_001) txn_test_001
           (boot [Rival txn_test_001] 1000)); reflexivity.
Defined.

(** ** Background tasks *)

Lemma known_no_task id w :
  known w -> find_by_id id (table w) = [] -> tasks_of id (tasks w) = [].
Proof.
  intros Hk Hf. destruct (tasks_of id (tasks w)) as [|t q] eqn:E; [done|].
  assert (t ∈ tasks_of id (tasks w)) as Hin by (rewrite E; left).
  apply list_elem_of_filter in Hin as [Hid Hin]. unfold has_id in Hid.
  destruct (Hk (task_arg t)); [|by rewrite Hid].
  apply list_elem_of_fmap. by exists t.
Qed.

Lemma step_tasks_of e w id :
  known w ->
  length (tasks_of id (tasks w)) <= 1 ->
  length (tasks_of id (tasks (step e w).2)) <= 1.
Proof.
  intros Hk Hle. destruct e as [body|id'|i|i|d].
  - destruct (WebhookRequest_validate body) as [d|] eqn:Hv.
    2: { by rewrite (step_Post_invalid _ _ Hv). }
    rewrite (step_Post_valid _ _ _ Hv).
    destruct (receive_webhook_cases d w) as [[] H]; simpl in H.
    + by destruct H as (_ & _ & _ & -> & _).
    + by destruct H as (_ & _ & _ & _ & -> & _).
    + by destruct H as (_ & _ & _ & _ & _ & -> & _).
    + destruct H as (_ & _ & _ & Hf & _ & _ & -> & _).
      rewrite tasks_of_app, length_app, tasks_of_new.
      destruct (bool_decide_reflect (WebhookRequest.transaction_id d = id)) as [<-|Hne];
        [|simpl; lia].
      rewrite (known_no_task _ _ Hk); [simpl; lia|].
      destruct (find_by_id (WebhookRequest.transaction_id d) (table w)) eqn:E; [done|].
      destruct (writes_keeps_ids _ _ (WebhookRequest.transaction_id d) (settle_writes w));
        [by rewrite E | exact Hf].
    + by destruct H as (_ & _ & _ & _ & -> & _).
  - rewrite step_Get. by destruct (get_endpoint_frame id' w) as [->|(_ & -> & _)].
  - destruct (step_Start_cases i w) as [->|(a & ->)]; [done|].
    by rewrite (tasks_of_set_task_state id i _ (process_transaction_start a w).2).
  - destruct (step_Wake_cases i w) as [->|(a & _ & ->)]; [done|].
    rewrite tasks_of_set_task_state.
    by destruct (process_transaction_resume_cases a w) as [[_ E]|[_ E]]; rewrite E.
  - by destruct (step_Tick d w) as [->| ->].
Qed.

Lemma run_tasks_of evs w id :
  known w ->
  length (tasks_of id (tasks w)) <= 1 ->
  length (tasks_of id (tasks (run evs w).2)) <= 1.
Proof.
  revert w. induction evs as [|e evs IH]; intros w Hk Hle; [done|].
  rewrite run_cons. apply IH; [by apply step_known | by apply step_tasks_of].
Qed.

(** X5: in every state reached from start-up, under any store outages and any
    sibling admissions, this process has queued at most one background task per
    [transaction_id], and every task it has queued is for a record that is in
    the table: [add_task] only ever follows a successful insert. *)
Theorem X5_one_task_per_stored_record (env0 : list Interference) (clock0 : Z)
    (evs : list Event) :
  (forall id, length (tasks_of id (tasks (run evs (boot env0 clock0)).2)) <= 1) /\
  (forall t, t ∈ tasks (run evs (boot env0 clock0)).2 ->
     find_by_id (Transaction.transaction_id (task_arg t))
       (table (run evs (boot env0 clock0)).2) <> []).
Proof.
  split.
  - intros id. apply run_tasks_of; [apply boot_known | simpl; lia].
  - intros t Ht. apply (run_known evs (boot env0 clock0) (boot_known env0 clock0)).
    apply list_elem_of_fmap. by exists t.
Qed.

Lemma X5_witness :
  find_by_id "txn_test_001"
    (table (run [Post (to_body txn_test_001); Post (to_body txn_test_001)]
              (boot [Outage; Quiet; Quiet; Outage] 1000)).2) <> [].
Proof.
  destruct (X5_one_task_per_stored_record [Outage; Quiet; Quiet; Outage] 1000
              [Post (to_body txn_test_001); Post (to_body txn_test_001)]) as [_ H].
  apply (H (queued (new_transaction txn_test_001 1000))). vm_compute. left.
Defined.

(** ** Queries *)

(** X6: for an id the route matches (one non-empty path segment), the query
    endpoint answers 500 exactly when its lookup raises.  It then logs one
    ERROR line and leaves table and tasks as they were.  The 404 raised inside
    the [try] passes the [except HTTPException: raise] clause unchanged: it is
    neither logged nor turned into a 500. *)
Theorem X6_query_failure (transaction_id : string) (w : World) :
  routable transaction_id = true ->
  (status_code (get_endpoint transaction_id w).1 = 500%Z
   <-> head (env w) = Some Outage) /\
  (head (env w) = Some Outage ->
   (get_endpoint transaction_id w).1
     = {| status_code := 500; content := Detail "Internal server error" |} /\
   logs (get_endpoint transaction_id w).2
     = logs w ++ [(ERROR, "Error retrieving transaction: " +:+ str StoreUnavailable)] /\
   table (get_endpoint transaction_id w).2 = table w /\
   tasks (get_endpoint transaction_id w).2 = tasks w) /\
  (status_code (get_endpoint transaction_id w).1 = 404%Z ->
   (get_transaction transaction_id w).1
     = Raise (HTTPException 404 "Transaction not found") /\
   logs (get_endpoint transaction_id w).2 = logs w).
Proof.
  intros Hroute. unfold get_endpoint. rewrite Hroute.
  unfold get_transaction, try_except, bind.
  destruct (select_eq_cases transaction_id w) as [[H E]|[H E]]; rewrite E; simpl.
  - repeat split; try done; by intros [=].
  - destruct (find_by_id transaction_id (served_table w)); simpl;
      repeat split; try done; by intros [=].
Qed.

Lemma X6_witness :
  (get_endpoint "txn_test_001" (boot [Outage] 1000)).1
    = {| status_code := 500; content := Detail "Internal server error" |} /\
  logs (get_endpoint "txn_does_not_exist" (boot [] 1000)).2 = [].
Proof.
  destruct (X6_query_failure "txn_test_001" (boot [Outage] 1000) eq_refl)
    as (_ & H & _).
  destruct (X6_query_failure "txn_does_not_exist" (boot [] 1000) eq_refl)
    as (_ & _ & H').
  split; [apply H; reflexivity | apply H'; reflexivity].
Defined.

(** ** With the store reachable and one server process *)

Lemma get_endpoint_calm id w :
  routable id = true ->
  env w = [] ->
  get_endpoint id w
  = (match find_by_id id (table w) with
     | [] => {| status_code := 404; content := Detail "Transaction not found" |}
     | r :: _ => {| status_code := 200; content := Json (response_of r) |}
     end, w).
Proof.
  destruct w as [t c e q l]. simpl. intros Hroute ->.
  unfold get_endpoint. rewrite Hroute.
  unfold get_transaction, try_except, bind, select_eq, execute. simpl.
  by destruct (find_by_id id t).
Qed.

Lemma receive_webhook_created_calm d w :
  env w = [] ->
  find_by_id (WebhookRequest.transaction_id d) (table w) = [] ->
  isfinite (WebhookRequest.amount d) = true ->
  receive_webhook d w
  = (Return (Response 202),
     {| table := table w ++ [new_transaction d (clock w)];
        clock := clock w;
        env := [];
        tasks := tasks w ++ [queued (new_transaction d (clock w))];
        logs := logs w ++ [(INFO, "Transaction " +:+ WebhookRequest.transaction_id d
                                  +:+ " queued for processing")] |}).
Proof.
  destruct w as [t c e q l]. simpl. intros -> Hf Hfin.
  unfold receive_webhook, try_except, bind, select_eq, execute. simpl. rewrite Hf.
  unfold utcnow, insert. simpl. rewrite Hfin.
  unfold execute, insert_if_absent. simpl. rewrite Hf. reflexivity.
Qed.

(** X7: with the store reachable and one server process, after any history
    since start-up a query for an id the route matches (one non-empty path
    segment) changes nothing at all (no write, no log line), and it answers 200
    with the one stored record of the id if a valid payload with a finite
    amount was ever delivered for that id, and 404 "Transaction not found" if
    none was. *)
Theorem X7_query_finds_what_was_delivered (clock0 : Z) (evs : list Event)
    (transaction_id : string) :
  routable transaction_id = true ->
  (get_endpoint transaction_id (run evs (boot [] clock0)).2).2
    = (run evs (boot [] clock0)).2 /\
  if existsb (delivers transaction_id) evs
  then exists r, find_by_id transaction_id (table (run evs (boot [] clock0)).2) = [r] /\
                 (get_endpoint transaction_id (run evs (boot [] clock0)).2).1
                 = {| status_code := 200; content := Json (response_of r) |}
  else (get_endpoint transaction_id (run evs (boot [] clock0)).2).1
       = {| status_code := 404; content := Detail "Transaction not found" |}.
Proof.
  intros Hroute. destruct (once_run evs clock0) as [Hcalm Hcount].
  destruct (Hcount transaction_id) as [Hr _].
  rewrite (get_endpoint_calm _ _ Hroute Hcalm). simpl. split; [done|].
  destruct (existsb _ evs).
  - destruct (find_by_id _ _) as [|r [|r' rows]]; try discriminate. by exists r.
  - by apply length_zero_iff_nil in Hr as ->.
Qed.

Lemma X7_witness :
  routable "txn_test_001" = true /\
  (get_endpoint "txn_test_001"
     (run [Post (to_body txn_test_001)] (boot [] 1000)).2).2
  = (run [Post (to_body txn_test_001)] (boot [] 1000)).2.
Proof.
  split; [reflexivity|].
  exact (proj1 (X7_query_finds_what_was_delivered
                  1000 [Post (to_body txn_test_001)] "txn_test_001" eq_refl)).
Defined.

(** X8: insert then lookup.  With the store reachable, a first delivery of a
    payload with a finite [amount] and an id that is one non-empty path
    segment, followed by a query of that id, answers 202 and then 200 with
    exactly the delivered [source_account], [destination_account], [amount]
    and [currency], status PROCESSING, [created_at] the time of the delivery
    and no [processed_at]. *)
Theorem X8_delivery_then_query (body : JsonBody.t) (d : WebhookRequest.t) (w : World) :
  WebhookRequest_validate body = Some d ->
  isfinite (WebhookRequest.amount d) = true ->
  routable (WebhookRequest.transaction_id d) = true ->
  env w = [] ->
  find_by_id (WebhookRequest.transaction_id d) (table w) = [] ->
  (run [Post body; Get (WebhookRequest.transaction_id d)] w).1
  = [Some (Response 202);
     Some {| status_code := 200;
             content := Json
               {| TransactionResponse.transaction_id := WebhookRequest.transaction_id d;
                  TransactionResponse.source_account := WebhookRequest.source_account d;
                  TransactionResponse.destination_account :=
                    WebhookRequest.destination_account d;
                  TransactionResponse.amount := WebhookRequest.amount d;
                  TransactionResponse.currency := WebhookRequest.currency d;
                  TransactionResponse.status := "PROCESSING";
                  TransactionResponse.created_at := clock w;
                  TransactionResponse.processed_at := None |} |}].
Proof.
  intros Hv Hfin Hroute Hcalm Hf. cbn [run step].
  rewrite (post_webhook_valid _ _ _ Hv), (receive_webhook_created_calm _ _ Hcalm Hf Hfin).
  cbn [fst snd render id]. rewrite get_endpoint_calm by done. cbn [table].
  rewrite find_by_id_app, Hf, find_by_id_new, bool_decide_true by done.
  reflexivity.
Qed.

Lemma X8_witness :
  (run [Post (to_body txn_test_001); Get "txn_test_001"] (boot [] 1000)).1 !! 1
  = Some (Some {| status_code := 200;
                  content := Json (response_of (new_transaction txn_test_001 1000)) |}).
Proof.
  pose proof (X8_delivery_then_query (to_body txn_test_001) txn_test_001 (boot [] 1000)
                eq_refl eq_refl eq_refl eq_refl eq_refl) as H.
  change (WebhookRequest.transaction_id txn_test_001) with "txn_test_001" in H.
  rewrite H. reflexivity.
Defined.

(** ** From delivery to PROCESSED *)

Lemma run_cons_out e evs w :
  (run (e :: evs) w).1 = (step e w).1 :: (run evs (step e w).2).1.
Proof. cbn [run]. destruct (step e w) as [o w1]. simpl. by destruct (run evs w1). Qed.

Lemma alter_last {A} (f : A -> A) (l : list A) (x : A) :
  alter f (length l) (l ++ [x]) = l ++ [f x].
Proof. induction l as [|y l IH]; simpl; [done|]. f_equal. exact IH. Qed.

Lemma find_by_id_update_same id s p t :
  find_by_id id (update_fields id (apply_update s p) t)
  = apply_update s p <$> find_by_id id t.
Proof.
  unfold find_by_id, update_fields. induction t as [|r t IH]; [done|].
  rewrite fmap_cons, !filter_cons.
  destruct (decide (has_id id r)) as [H|H].
  - rewrite decide_True by exact H. rewrite fmap_cons. by rewrite IH.
  - rewrite decide_False by exact H. exact IH.
Qed.

Lemma step_Start_last w q a :
  tasks w = q ++ [queued a] ->
  step (Start (length q)) w
  = (None, {| table := table w; clock := clock w; env := env w;
              tasks := q ++ [{| task_arg := a;
                                task_state := Sleeping (clock w + 30) |}];
              logs := logs w ++ [(INFO, "Starting processing for transaction: "
                                        +:+ Transaction.transaction_id a)] |}).
Proof.
  destruct w as [t c e tk l]. simpl. intros ->.
  rewrite list_lookup_middle by done. unfold queued. simpl.
  unfold set_task_state. simpl. by rewrite alter_last.
Qed.

Lemma step_Wake_early w q a wake :
  tasks w = q ++ [{| task_arg := a; task_state := Sleeping wake |}] ->
  (clock w < wake)%Z ->
  step (Wake (length q)) w = (None, w).
Proof.
  intros Hq Hlt. simpl. rewrite Hq, list_lookup_middle by done.
  destruct (Z.leb_spec wake (clock w)); [lia|done].
Qed.

Lemma step_Wake_last w q a wake :
  tasks w = q ++ [{| task_arg := a; task_state := Sleeping wake |}] ->
  (wake <= clock w)%Z ->
  env w = [] ->
  step (Wake (length q)) w
  = (None, {| table := update_fields (Transaction.transaction_id a)
                         (apply_update "PROCESSED" (clock w)) (table w);
              clock := clock w; env := [];
              tasks := q ++ [{| task_arg := a; task_state := Finished |}];
              logs := logs w ++ [(INFO, "Transaction " +:+ Transaction.transaction_id a
                                        +:+ " processed successfully")] |}).
Proof.
  destruct w as [t c e tk l]. simpl. intros -> Hle ->.
  rewrite list_lookup_middle by done.
  destruct (Z.leb_spec wake c); [|lia].
  unfold process_transaction_resume, try_except, bind, utcnow, update_eq, execute.
  simpl. unfold set_task_state. simpl. by rewrite alter_last.
Qed.

(** X9: the whole life of a transaction.  With the store reachable, deliver a
    payload with a finite [amount] under a new id that is one non-empty path
    segment, let its background task start, let [dt] time units pass, let the
    task try to resume, and query.  If [dt] is at least 30 the query shows the
    delivered payload with status PROCESSED, [created_at] the delivery time and
    [processed_at] the delivery time plus [dt].  If [dt] is between 0 and 30
    the task is still asleep and the query shows PROCESSING and no
    [processed_at]. *)
Theorem X9_delivery_to_processed (body : JsonBody.t) (d : WebhookRequest.t)
    (w : World) (dt : Z) :
  WebhookRequest_validate body = Some d ->
  isfinite (WebhookRequest.amount d) = true ->
  routable (WebhookRequest.transaction_id d) = true ->
  env w = [] ->
  find_by_id (WebhookRequest.transaction_id d) (table w) = [] ->
  (0 <= dt)%Z ->
  (run [Post body; Start (length (tasks w)); Tick dt; Wake (length (tasks w));
        Get (WebhookRequest.transaction_id d)] w).1
  = [Some (Response 202); None; None; None;
     Some {| status_code := 200;
             content := Json
               {| TransactionResponse.transaction_id := WebhookRequest.transaction_id d;
                  TransactionResponse.source_account := WebhookRequest.source_account d;
                  TransactionResponse.destination_account :=
                    WebhookRequest.destination_account d;
                  TransactionResponse.amount := WebhookRequest.amount d;
                  TransactionResponse.currency := WebhookRequest.currency d;
                  TransactionResponse.status :=
                    if (30 <=? dt)%Z then "PROCESSED" else "PROCESSING";
                  TransactionResponse.created_at := clock w;
                  TransactionResponse.processed_at :=
                    if (30 <=? dt)%Z then Some (clock w + dt)%Z else None |} |}].
Proof.
  intros Hv Hfin Hroute Hcalm Hf Hdt.
  rewrite run_cons_out. cbn [step].
  rewrite (post_webhook_valid _ _ _ Hv), (receive_webhook_created_calm _ _ Hcalm Hf Hfin).
  cbn [fst snd render id]. f_equal.
  rewrite run_cons_out, (step_Start_last _ (tasks w) (new_transaction d (clock w)))
    by reflexivity.
  cbn [fst snd table clock env tasks logs]. f_equal.
  rewrite run_cons_out. cbn [step].
  destruct (Z.leb_spec 0 dt) as [_|]; [|lia].
  unfold with_clock. cbn [fst snd table clock env tasks logs]. f_equal.
  rewrite run_cons_out.
  destruct (Z.leb_spec 30 dt) as [Hlate|Hearly].
  - rewrite (step_Wake_last _ (tasks w) (new_transaction d (clock w)) (clock w + 30))
      by (simpl; (reflexivity || lia)).
    cbn [fst snd table clock env tasks logs]. f_equal.
    rewrite run_cons_out. cbn [step run fst].
    rewrite get_endpoint_calm by (exact Hroute || reflexivity). cbn [table fst].
    change (Transaction.transaction_id (new_transaction d (clock w)))
      with (WebhookRequest.transaction_id d).
    rewrite find_by_id_update_same, find_by_id_app, Hf, find_by_id_new,
      bool_decide_true by done.
    reflexivity.
  - rewrite (step_Wake_early _ (tasks w) (new_transaction d (clock w)) (clock w + 30))
      by (simpl; (reflexivity || lia)).
    cbn [fst snd]. f_equal.
    rewrite run_cons_out. cbn [step run fst].
    rewrite get_endpoint_calm by (exact Hroute || reflexivity). cbn [table fst].
    rewrite find_by_id_app, Hf, find_by_id_new, bool_decide_true by done.
    reflexivity.
Qed.

Lemma X9_witness :
  (run [Post (to_body txn_test_001); Start 0; Tick 45; Wake 0; Get "txn_test_001"]
     (boot [] 1000)).1 !! 4
  = Some (Some {| status_code := 200;
                  content := Json (response_of (apply_update "PROCESSED" 1045
                                                  (new_transaction txn_test_001 1000))) |}).
Proof.
  pose proof (X9_delivery_to_processed (to_body txn_test_001) txn_test_001
                (boot [] 1000) 45 eq_refl eq_refl eq_refl eq_refl eq_refl ltac:(lia))
    as H.
  change (WebhookRequest.transaction_id txn_test_001) with "txn_test_001" in H.
  change (length (tasks (boot [] 1000))) with 0 in H.
  rewrite H. reflexivity.
Defined.

(** ** Failures that leave no trace *)

(** X10: [process_transaction] never lets an exception out, whatever the store
    does, and makes exactly one store call, so a failed update is not tried
    again.  When the store is unreachable it logs one ERROR line and leaves the
    table as it was. *)
Theorem X10_finalization_never_raises (a : Transaction.t) (w : World) :
  (process_transaction_start a w).1 = Return (clock w + 30)%Z /\
  (process_transaction_resume a w).1 = Return tt /\
  env (process_transaction_resume a w).2 = tail (env w) /\
  tasks (process_transaction_resume a w).2 = tasks w /\
  (head (env w) = Some Outage ->
   table (process_transaction_resume a w).2 = table w /\
   logs (process_transaction_resume a w).2
   = logs w ++ [(ERROR, "Error processing transaction " +:+ Transaction.transaction_id a
                        +:+ ": " +:+ str StoreUnavailable)]).
Proof.
  split; [reflexivity|].
  destruct (process_transaction_resume_cases a w) as [[H E]|[H E]]; rewrite E; simpl;
    repeat split; try done.
Qed.

Lemma X10_witness :
  table (process_transaction_resume (new_transaction txn_test_001 1000)
           (with_env [Outage] accepted_world)).2
  = [new_transaction txn_test_001 1000].
Proof.
  destruct (X10_finalization_never_raises (new_transaction txn_test_001 1000)
              (with_env [Outage] accepted_world)) as (_ & _ & _ & _ & H).
  destruct (H eq_refl) as [Ht _]. rewrite Ht. reflexivity.
Defined.

Lemma health_check_eq w :
  health_check w
  = (Return {| HealthCheckResponse.status := "HEALTHY";
               HealthCheckResponse.current_time := clock w |}, w).
Proof. reflexivity. Qed.

Lemma served_table_sole_writer w : sole_writer w -> served_table w = table w.
Proof.
  unfold sole_writer, served_table. intros H.
  destruct (env w) as [|[| |d] e]; simpl; try done.
  inversion H as [|i l Hi Hl]. by destruct (Hi d).
Qed.

Lemma sole_writer_settle w : sole_writer w -> sole_writer (settle w).
Proof.
  unfold sole_writer. simpl. intros H. destruct (env w) as [|i e]; simpl; [done|].
  by inversion H.
Qed.

(** X13: a delivery that is answered 500 leaves no partial state: with no
    sibling process writing, and a store call that raises being one that did
    not reach the store, the table and the task queue are exactly what they
    were before it.  So the sender of a payload with a finite [amount] can
    retry: once the store is reachable again, delivering the same payload again
    is answered 202, creates the record and queues its task. *)
Theorem X13_failed_delivery_can_be_retried (body : JsonBody.t) (d : WebhookRequest.t)
    (w : World) :
  WebhookRequest_validate body = Some d ->
  sole_writer w ->
  status_code (post_webhook body w).1 = 500%Z ->
  table (post_webhook body w).2 = table w /\
  tasks (post_webhook body w).2 = tasks w /\
  (isfinite (WebhookRequest.amount d) = true ->
   env (post_webhook body w).2 = [] ->
   find_by_id (WebhookRequest.transaction_id d) (table w) = [] ->
   (post_webhook body (post_webhook body w).2).1 = Response 202 /\
   table (post_webhook body (post_webhook body w).2).2
     = table w ++ [new_transaction d (clock w)] /\
   tasks (post_webhook body (post_webhook body w).2).2
     = tasks w ++ [queued (new_transaction d (clock w))]).
Proof.
  intros Hv Hsole H500.
  assert (table (post_webhook body w).2 = table w /\
          tasks (post_webhook body w).2 = tasks w) as [Ht Hq].
  { revert H500. rewrite (post_webhook_valid _ _ _ Hv). cbn [fst snd].
    destruct (receive_webhook_cases d w) as [[] H]; simpl in H.
    - by destruct H as (_ & _ & -> & -> & _).
    - destruct H as (_ & _ & -> & _). simpl. discriminate.
    - destruct H as (_ & _ & _ & _ & -> & -> & _). intros _. split; [|done].
      rewrite (served_table_sole_writer (settle w)) by by apply sole_writer_settle.
      simpl. by apply served_table_sole_writer.
    - destruct H as (_ & _ & _ & _ & -> & _). simpl. discriminate.
    - destruct H as (_ & _ & _ & -> & -> & _). intros _. split; [|done].
      by apply served_table_sole_writer. }
  split; [exact Ht|]. split; [exact Hq|]. intros Hfin Hcalm Hf.
  assert (clock (post_webhook body w).2 = clock w) as Hc.
  { rewrite (post_webhook_valid _ _ _ Hv). apply receive_webhook_effects. }
  rewrite (post_webhook_valid body d (post_webhook body w).2 Hv).
  rewrite receive_webhook_created_calm by (by rewrite ?Ht).
  cbn [fst snd render id table tasks]. by rewrite Ht, Hq, Hc.
Qed.

Lemma X13_witness :
  table (post_webhook (to_body txn_test_001)
           (post_webhook (to_body txn_test_001) (boot [Quiet; Outage] 1000)).2).2
  = [new_transaction txn_test_001 1000].
Proof.
  destruct (X13_failed_delivery_can_be_retried (to_body txn_test_001) txn_test_001
              (boot [Quiet; Outage] 1000)) as (_ & _ & H).
  - reflexivity.
  - unfold sole_writer. simpl. repeat constructor; discriminate.
  - reflexivity.
  - destruct (H eq_refl eq_refl eq_refl) as (_ & Ht & _). rewrite Ht. reflexivity.
Defined.

(** ** Who may rewrite a record *)

Lemma step_grows e w : (forall i, e <> Wake i) -> grows (table w) (table (step e w).2).
Proof.
  intros Hnot. destruct e as [body|id|i|i|d].
  - destruct (WebhookRequest_validate body) as [d|] eqn:Hv.
    + rewrite (step_Post_valid _ _ _ Hv). apply receive_webhook_grows.
    + rewrite (step_Post_invalid _ _ Hv). apply grows_refl.
  - rewrite step_Get. destruct (get_endpoint_frame id w) as [->|(-> & _)];
      [apply grows_refl | apply served_table_grows].
  - destruct (step_Start_cases i w) as [->|(a & ->)]; apply grows_refl.
  - by destruct (Hnot i).
  - destruct (step_Tick d w) as [->| ->]; apply grows_refl.
Qed.

(** X14: only a resuming background task ever rewrites a stored row.  A
    delivery (new, duplicate, conflicting or failing), a query, a task start
    and a clock tick leave every existing row exactly as it was; whatever they
    add to the table is appended after the existing rows, with status
    PROCESSING and no [processed_at]. *)
Theorem X14_only_finalization_rewrites (e : Event) (w : World) :
  (forall i, e <> Wake i) ->
  exists news, table (step e w).2 = table w ++ news /\
               Forall (fun r => Transaction.status r = "PROCESSING" /\
                                Transaction.processed_at r = None) news.
Proof. apply step_grows. Qed.

Lemma X14_witness :
  exists news, table (step (Post (to_body conflicting_txn_test_001)) accepted_world).2
               = table accepted_world ++ news.
Proof.
  destruct (X14_only_finalization_rewrites (Post (to_body conflicting_txn_test_001))
              accepted_world) as (news & H & _); [discriminate|].
  by exists news.
Defined.

(** ** Many distinct deliveries *)

Lemma validate_to_body d : WebhookRequest_validate (to_body d) = Some d.
Proof. by destruct d. Qed.

Lemma step_Post_created_calm d w :
  env w = [] ->
  find_by_id (WebhookRequest.transaction_id d) (table w) = [] ->
  isfinite (WebhookRequest.amount d) = true ->
  step (Post (to_body d)) w
  = (Some (Response 202),
     {| table := table w ++ [new_transaction d (clock w)];
        clock := clock w;
        env := [];
        tasks := tasks w ++ [queued (new_transaction d (clock w))];
        logs := logs w ++ [(INFO, "Transaction " +:+ WebhookRequest.transaction_id d
                                  +:+ " queued for processing")] |}).
Proof.
  intros Hcalm Hf Hfin. cbn [step].
  by rewrite (post_webhook_valid _ _ _ (validate_to_body d)),
    (receive_webhook_created_calm _ _ Hcalm Hf Hfin).
Qed.

(** X12: the load test of [test_criteria.py], for any number of payloads.
    With the store reachable, delivering payloads with finite amounts and
    pairwise distinct ids, none of which has a record yet, answers 202 to every
    one, appends one
    PROCESSING record per payload in delivery order and queues one task per
    payload, all in the same clock instant: no delivery waits for any
    processing. *)
Theorem X12_distinct_deliveries (ds : list WebhookRequest.t) (w : World) :
  env w = [] ->
  NoDup (WebhookRequest.transaction_id <$> ds) ->
  (forall d, d ∈ ds -> find_by_id (WebhookRequest.transaction_id d) (table w) = []) ->
  (forall d, d ∈ ds -> isfinite (WebhookRequest.amount d) = true) ->
  (run (Post ∘ to_body <$> ds) w).1 = (fun _ => Some (Response 202)) <$> ds /\
  table (run (Post ∘ to_body <$> ds) w).2
    = table w ++ ((fun d => new_transaction d (clock w)) <$> ds) /\
  tasks (run (Post ∘ to_body <$> ds) w).2
    = tasks w ++ ((fun d => queued (new_transaction d (clock w))) <$> ds) /\
  clock (run (Post ∘ to_body <$> ds) w).2 = clock w.
Proof.
  revert w. induction ds as [|d ds IH]; intros w Hcalm Hnd Hnew Hfin.
  { simpl. by rewrite !app_nil_r. }
  rewrite fmap_cons in Hnd. apply list.NoDup_cons in Hnd as [Hd Hnd].
  assert (find_by_id (WebhookRequest.transaction_id d) (table w) = []) as Hf
    by (apply Hnew; left).
  assert (isfinite (WebhookRequest.amount d) = true) as Hfd by (apply Hfin; left).
  rewrite !fmap_cons, run_cons_out, run_cons. cbn [compose].
  rewrite (step_Post_created_calm _ _ Hcalm Hf Hfd). cbn [fst snd].
  match goal with
  | |- context [run _ ?w1] =>
      destruct (IH w1) as (Ho & Ht & Hq & Hc);
        [reflexivity | exact Hnd | | intros d' Hd'; apply Hfin; by right | ]
  end.
  - intros d' Hd'. cbn [table]. rewrite find_by_id_app, find_by_id_new.
    rewrite (Hnew d') by (by right). rewrite bool_decide_false; [done|].
    intros E. apply Hd. rewrite E. apply list_elem_of_fmap. by exists d'.
  - rewrite Ho, Ht, Hq, Hc. cbn [table tasks clock].
    by rewrite <- !app_assoc.
Qed.

Lemma X12_witness :
  table (run (Post ∘ to_body <$> [txn_test_001; txn_test_002]) (boot [] 1000)).2
  = [new_transaction txn_test_001 1000; new_transaction txn_test_002 1000].
Proof.
  destruct (X12_distinct_deliveries [txn_test_001; txn_test_002] (boot [] 1000))
    as (_ & H & _).
  - reflexivity.
  - simpl. apply list.NoDup_cons. split; [|apply NoDup_singleton].
    intros Hin. apply list_elem_of_singleton in Hin. discriminate.
  - intros d _. reflexivity.
  - intros d [->|Hd]%elem_of_cons; [reflexivity|].
    apply list_elem_of_singleton in Hd as ->. reflexivity.
  - exact H.
Defined.

(** ** No record is processed early *)

Lemma appended_refl t : appended t t.
Proof. exists []. split; [by rewrite app_nil_r | constructor]. Qed.

Lemma find_by_id_app_nil id t1 t2 :
  find_by_id id (t1 ++ t2) = [] -> find_by_id id t1 = [].
Proof. rewrite find_by_id_app. by intros [-> _]%app_eq_nil. Qed.

Lemma appended_trans t1 t2 t3 : appended t1 t2 -> appended t2 t3 -> appended t1 t3.
Proof.
  intros (n1 & -> & H1) (n2 & -> & H2). exists (n1 ++ n2).
  split; [by rewrite app_assoc|]. apply Forall_app. split; [done|].
  eapply Forall_impl; [|exact H2]. intros r [Hr Hf]. split; [done|].
  by apply find_by_id_app_nil in Hf.
Qed.

Lemma appended_create t d now :
  find_by_id (WebhookRequest.transaction_id d) t = [] ->
  appended t (t ++ [new_transaction d now]).
Proof.
  intros Hf. exists [new_transaction d now]. split; [done|].
  apply Forall_singleton. by repeat split.
Qed.

Lemma appended_elem t t' r :
  appended t t' -> r ∈ t' ->
  r ∈ t \/ (fresh r /\ find_by_id (Transaction.transaction_id r) t = []).
Proof.
  intros (news & -> & Hall) [Hr|Hr]%elem_of_app; [by left|right].
  rewrite Forall_forall in Hall. by apply Hall, list_elem_of_In.
Qed.

Lemma served_table_appended w : appended (table w) (served_table w).
Proof.
  unfold served_table.
  destruct (interfere_cases (default Quiet (head (env w))) (clock w) (table w))
    as [->|(d & _ & Hd & ->)]; [apply appended_refl | by apply appended_create].
Qed.

Lemma settle_appended w : appended (table w) (served_table (settle w)).
Proof.
  eapply appended_trans; [apply served_table_appended|].
  apply (served_table_appended (settle w)).
Qed.

Lemma elem_of_alter_inv {A} (f : A -> A) (i : nat) (l : list A) (x : A) :
  x ∈ alter f i l -> x ∈ l \/ exists y, y ∈ l /\ x = f y.
Proof.
  revert i. induction l as [|y l IH]; intros [|i]; simpl.
  - by left.
  - by left.
  - intros [->|Hx]%elem_of_cons.
    + right. exists y. split; [left|done].
    + left. by right.
  - intros [->|Hx]%elem_of_cons; [left; left|].
    destruct (IH i Hx) as [H|(z & Hz & ->)]; [left; by right|].
    right. exists z. split; [by right|done].
Qed.

Lemma on_schedule_grow t c q t' c' q' :
  (forall k, k ∈ q -> find_by_id (Transaction.transaction_id (task_arg k)) t <> []) ->
  on_schedule_at t c q ->
  appended t t' ->
  (c <= c')%Z ->
  (forall k', k' ∈ q' ->
     (exists k, k ∈ q /\ task_arg k' = task_arg k /\
                (task_state k' = task_state k \/ task_state k' = Finished \/
                 task_state k' = Sleeping (c + 30))) \/
     (task_state k' = Queued /\ (Transaction.created_at (task_arg k') <= c)%Z /\
      forall r, r ∈ t' ->
                Transaction.transaction_id r = Transaction.transaction_id (task_arg k') ->
                r = task_arg k')) ->
  on_schedule_at t' c' q'.
Proof.
  intros Hknown (Hb & Hc & Hd) Happ Hle Hq'. repeat split.
  - destruct (Hq' k H) as [(k0 & Hk0 & Ha & _)|(_ & Hcr & _)]; [|lia].
    rewrite Ha. destruct (Hb k0 Hk0). lia.
  - intros wake Hw. destruct (Hq' k H) as [(k0 & Hk0 & Ha & Hs)|(Hst & _)];
      [|congruence].
    rewrite Ha. destruct (Hb k0 Hk0) as [Hcr Hwk].
    destruct Hs as [Hs|[Hs|Hs]]; [apply Hwk; congruence | congruence |].
    rewrite Hs in Hw. injection Hw as <-. lia.
  - intros k' r Hk' Hr Hid.
    destruct (Hq' k' Hk') as [(k0 & Hk0 & Ha & _)|(_ & _ & Hnew)].
    + rewrite Ha in *.
      destruct (appended_elem _ _ _ Happ Hr) as [Hold|[_ Hf]]; [by eapply Hc|].
      destruct (Hknown k0 Hk0). by rewrite <- Hid.
    + by rewrite (Hnew r Hr Hid).
  - intros r p Hr Hp.
    destruct (appended_elem _ _ _ Happ Hr) as [Hold|[[_ Hf] _]]; [by eapply Hd|].
    congruence.
Qed.

Lemma on_schedule_finalize t c q a wake :
  on_schedule_at t c q ->
  {| task_arg := a; task_state := Sleeping wake |} ∈ q ->
  (wake <= c)%Z ->
  on_schedule_at
    (update_fields (Transaction.transaction_id a) (apply_update "PROCESSED" c) t) c q.
Proof.
  intros (Hb & Hc & Hd) Ha Hle. repeat split.
  - by apply Hb.
  - by apply Hb.
  - intros k r' Hk Hr' Hid. unfold update_fields in Hr'.
    apply list_elem_of_fmap in Hr' as (r & -> & Hr).
    destruct (decide _); simpl in *; by eapply Hc.
  - intros r' p Hr' Hp. unfold update_fields in Hr'.
    apply list_elem_of_fmap in Hr' as (r & -> & Hr).
    destruct (decide (has_id (Transaction.transaction_id a) r)) as [Hid|Hid];
      [|by eapply Hd].
    simpl in *. injection Hp as <-.
    rewrite (Hc _ r Ha Hr Hid). simpl.
    destruct (Hb _ Ha) as [_ Hwk]. specialize (Hwk wake eq_refl). simpl in Hwk. lia.
Qed.

Lemma step_Wake_sleeping i w :
  (step (Wake i) w).2 = w \/
  exists a wake,
    {| task_arg := a; task_state := Sleeping wake |} ∈ tasks w /\
    (wake <= clock w)%Z /\
    (step (Wake i) w).2 = set_task_state i Finished (process_transaction_resume a w).2.
Proof.
  simpl. destruct (tasks w !! i) as [[a [|wake|]]|] eqn:Hi; auto.
  destruct (Z.leb_spec wake (clock w)); auto. right. exists a, wake.
  split; [by eapply list_elem_of_lookup_2|]. split; [done|].
  by destruct (process_transaction_resume a w).
Qed.

Lemma known_elem w k :
  known w -> k ∈ tasks w ->
  find_by_id (Transaction.transaction_id (task_arg k)) (table w) <> [].
Proof. intros Hk Hin. apply Hk, list_elem_of_fmap. by exists k. Qed.

Lemma step_on_schedule e w :
  known w ->
  on_schedule_at (table w) (clock w) (tasks w) ->
  on_schedule_at (table (step e w).2) (clock (step e w).2) (tasks (step e w).2).
Proof.
  intros Hknown Hs.
  assert (forall k, k ∈ tasks w ->
            find_by_id (Transaction.transaction_id (task_arg k)) (table w) <> [])
    as Hk by (intros k; by apply known_elem).
  assert (forall (t' : list Transaction.t) k', k' ∈ tasks w ->
     (exists k, k ∈ tasks w /\ task_arg k' = task_arg k /\
                (task_state k' = task_state k \/ task_state k' = Finished \/
                 task_state k' = Sleeping (clock w + 30))) \/
     (task_state k' = Queued /\ (Transaction.created_at (task_arg k') <= clock w)%Z /\
      forall r, r ∈ t' ->
                Transaction.transaction_id r = Transaction.transaction_id (task_arg k') ->
                r = task_arg k')) as Hsame.
  { intros t' k' Hk'. left. exists k'. auto. }
  assert (forall f, (forall y, task_arg (f y) = task_arg y /\
                               (task_state (f y) = Finished \/
                                task_state (f y) = Sleeping (clock w + 30))) ->
          forall i (t' : list Transaction.t) k', k' ∈ alter f i (tasks w) ->
     (exists k, k ∈ tasks w /\ task_arg k' = task_arg k /\
                (task_state k' = task_state k \/ task_state k' = Finished \/
                 task_state k' = Sleeping (clock w + 30))) \/
     (task_state k' = Queued /\ (Transaction.created_at (task_arg k') <= clock w)%Z /\
      forall r : Transaction.t, r ∈ t' ->
                Transaction.transaction_id r = Transaction.transaction_id (task_arg k') ->
                r = task_arg k')) as Halter.
  { intros f Hf i t' k' Hk'. left.
    destruct (elem_of_alter_inv _ _ _ _ Hk') as [Hin|(y & Hy & ->)].
    - exists k'. auto.
    - exists y. destruct (Hf y) as [Ha Hst]. auto. }
  destruct e as [body|id|i|i|d].
  - destruct (WebhookRequest_validate body) as [d|] eqn:Hv.
    2: { by rewrite (step_Post_invalid _ _ Hv). }
    rewrite (step_Post_valid _ _ _ Hv).
    destruct (receive_webhook_effects d w) as [-> _].
    destruct (receive_webhook_cases d w) as [[] H]; simpl in H.
    + by destruct H as (_ & _ & -> & -> & _).
    + destruct H as (_ & _ & _ & -> & -> & _).
      eapply on_schedule_grow; eauto using served_table_appended. lia.
    + destruct H as (_ & _ & _ & _ & -> & -> & _).
      eapply on_schedule_grow; eauto using settle_appended. lia.
    + destruct H as (_ & _ & _ & Hf & _ & -> & -> & _).
      eapply on_schedule_grow; [exact Hk | exact Hs | | reflexivity |].
      * eapply appended_trans; [apply settle_appended | by apply appended_create].
      * intros k' [Hold|Hnew]%elem_of_app; [left; exists k'; auto|].
        apply list_elem_of_singleton in Hnew as ->. right. simpl.
        split; [done|]. split; [lia|].
        intros r [Hr|Hr]%elem_of_app Hid.
        -- rewrite find_by_id_nil in Hf. by destruct (Hf r Hr).
        -- by apply list_elem_of_singleton in Hr.
    + destruct H as (_ & _ & _ & -> & -> & _).
      eapply on_schedule_grow; eauto using served_table_appended. lia.
  - rewrite step_Get. destruct (get_endpoint_frame id w) as [->|(-> & -> & -> & _)];
      [done|].
    eapply on_schedule_grow; eauto using served_table_appended. lia.
  - destruct (step_Start_cases i w) as [->|(a & ->)]; [done|].
    simpl. eapply on_schedule_grow; [exact Hk | exact Hs | apply appended_refl | lia |].
    apply Halter. intros y. split; [done|]. right. reflexivity.
  - destruct (step_Wake_sleeping i w) as [->|(a & wake & Ha & Hle & ->)]; [done|].
    destruct (process_transaction_resume_cases a w) as [[_ E]|[_ E]]; rewrite E; simpl.
    + eapply on_schedule_grow; [exact Hk | exact Hs | apply appended_refl | lia |].
      apply Halter. intros y. split; [done|]. by left.
    + assert (on_schedule_at (served_table w) (clock w) (tasks w)) as Hs1.
      { eapply on_schedule_grow; eauto using served_table_appended. lia. }
      pose proof (on_schedule_finalize _ _ _ a wake Hs1 Ha Hle) as Hs2.
      eapply on_schedule_grow; [ | exact Hs2 | apply appended_refl | lia |].
      * intros k Hin. eapply writes_keeps_ids; [|by apply Hk].
        eapply writes_then; [apply served_table_writes | apply writes_finalize].
      * apply Halter. intros y. split; [done|]. by left.
  - destruct (step_Tick d w) as [->|E]; [done|]. rewrite E. simpl.
    assert (0 <= d)%Z as Hd.
    { revert E. simpl. destruct (Z.leb_spec 0 d); [done|].
      destruct w. simpl. intros [= E]. lia. }
    eapply on_schedule_grow; [exact Hk | exact Hs | apply appended_refl | lia |].
    apply Hsame.
Qed.

Lemma run_on_schedule evs w :
  known w ->
  on_schedule_at (table w) (clock w) (tasks w) ->
  on_schedule_at (table (run evs w).2) (clock (run evs w).2) (tasks (run evs w).2).
Proof.
  revert w. induction evs as [|e evs IH]; intros w Hk Hs; [done|].
  rewrite run_cons. apply IH; [by apply step_known | by apply step_on_schedule].
Qed.

(** X15: no record is processed early.  In every state reached from start-up,
    under any store outages and any sibling admissions, a record that carries
    a [processed_at] carries one that is at least 30 time units after its
    [created_at]. *)
Theorem X15_processed_no_sooner_than_delay (env0 : list Interference) (clock0 : Z)
    (evs : list Event) (r : Transaction.t) (p : Timestamp) :
  r ∈ table (run evs (boot env0 clock0)).2 ->
  Transaction.processed_at r = Some p ->
  (Transaction.created_at r + 30 <= p)%Z.
Proof.
  intros Hr Hp.
  destruct (run_on_schedule evs (boot env0 clock0)) as (_ & _ & Hd).
  - apply boot_known.
  - unfold on_schedule_at, boot. cbn [table tasks clock].
    repeat split; intros;
      match goal with H : _ ∈ [] |- _ => by apply not_elem_of_nil in H end.
  - by eapply Hd.
Qed.

Lemma X15_witness : (1000 + 30 <= 1045)%Z.
Proof.
  apply (X15_processed_no_sooner_than_delay [] 1000
           [Post (to_body txn_test_001); Start 0; Tick 45; Wake 0]
           (apply_update "PROCESSED" 1045 (new_transaction txn_test_001 1000)) 1045).
  - vm_compute. left.
  - reflexivity.
Defined.

(** ** [processed_at] is written once *)

Lemma lookup_alter_inv {A} (f : A -> A) (i j : nat) (l : list A) (x : A) :
  alter f i l !! j = Some x ->
  (j = i /\ exists y, l !! i = Some y /\ x = f y) \/ (j <> i /\ l !! j = Some x).
Proof.
  intros H. destruct (decide (j = i)) as [->|Hne].
  - left. split; [done|]. rewrite list_lookup_alter_eq in H.
    destruct (l !! i) as [y|]; [|done]. injection H as <-. by exists y.
  - right. split; [done|]. by rewrite list_lookup_alter_ne in H.
Qed.

Lemma tasks_of_two id (l : list Task) i j x y :
  l !! i = Some x -> l !! j = Some y -> i <> j ->
  has_id id (task_arg x) -> has_id id (task_arg y) ->
  2 <= length (tasks_of id l).
Proof.
  unfold tasks_of. revert i j. induction l as [|z l IH]; intros i j Hi Hj Hne Hx Hy;
    [done|].
  rewrite filter_cons.
  assert (forall k v, l !! k = Some v -> has_id id (task_arg v) ->
                      1 <= length (filter (fun t => has_id id (task_arg t)) l)) as Hone.
  { intros k v Hk Hv.
    assert (v ∈ filter (fun t => has_id id (task_arg t)) l) as Hin.
    { apply list_elem_of_filter. split; [done|]. by eapply list_elem_of_lookup_2. }
    destruct (filter _ l); [by apply not_elem_of_nil in Hin|simpl; lia]. }
  destruct i as [|i], j as [|j]; simpl in Hi, Hj; try done.
  - injection Hi as <-. rewrite decide_True by done. simpl.
    pose proof (Hone j y Hj Hy). lia.
  - injection Hj as <-. rewrite decide_True by done. simpl.
    pose proof (Hone i x Hi Hx). lia.
  - assert (i <> j) as Hne' by congruence.
    pose proof (IH i j Hi Hj Hne' Hx Hy). destruct (decide _); simpl; lia.
Qed.

Lemma step_Start_queued i w :
  (step (Start i) w).2 = w \/
  exists a, tasks w !! i = Some {| task_arg := a; task_state := Queued |} /\
            (step (Start i) w).2
            = set_task_state i (Sleeping (clock w + DELAY))
                (process_transaction_start a w).2.
Proof.
  simpl. destruct (tasks w !! i) as [[a []]|]; auto. right. by exists a.
Qed.

Lemma step_Wake_lookup i w :
  (step (Wake i) w).2 = w \/
  exists a wake,
    tasks w !! i = Some {| task_arg := a; task_state := Sleeping wake |} /\
    (step (Wake i) w).2 = set_task_state i Finished (process_transaction_resume a w).2.
Proof.
  simpl. destruct (tasks w !! i) as [[a [|wake|]]|] eqn:Hi; auto.
  destruct (wake <=? clock w)%Z; auto. right. exists a, wake. split; [done|].
  by destruct (process_transaction_resume a w).
Qed.

Lemma pending_unprocessed_grows t t' q :
  pending_unprocessed t q -> grows t t' -> pending_unprocessed t' q.
Proof.
  intros Hp (news & -> & Hall) k r Hk Hst [Hr|Hr]%elem_of_app Hid; [by eapply Hp|].
  rewrite Forall_forall in Hall. by apply Hall, list_elem_of_In.
Qed.

Lemma step_pending_unprocessed e w :
  known w ->
  (forall id, length (tasks_of id (tasks w)) <= 1) ->
  pending_unprocessed (table w) (tasks w) ->
  pending_unprocessed (table (step e w).2) (tasks (step e w).2).
Proof.
  intros Hknown Hone Hp. destruct e as [body|id|i|i|d].
  - destruct (WebhookRequest_validate body) as [d|] eqn:Hv.
    2: { by rewrite (step_Post_invalid _ _ Hv). }
    rewrite (step_Post_valid _ _ _ Hv).
    pose proof (receive_webhook_grows d w) as Hg.
    destruct (receive_webhook_cases d w) as [[] H]; simpl in H.
    + destruct H as (_ & _ & _ & Hq & _). rewrite Hq. by eapply pending_unprocessed_grows.
    + destruct H as (_ & _ & _ & _ & Hq & _). rewrite Hq.
      by eapply pending_unprocessed_grows.
    + destruct H as (_ & _ & _ & _ & _ & Hq & _). rewrite Hq.
      by eapply pending_unprocessed_grows.
    + destruct H as (_ & _ & _ & Hf & _ & Ht & Hq & _). rewrite Hq.
      intros k r [Hk|Hk]%elem_of_app Hst Hr Hid.
      * by eapply (pending_unprocessed_grows _ _ _ Hp Hg).
      * apply list_elem_of_singleton in Hk as ->. simpl in Hid.
        rewrite Ht in Hr. apply elem_of_app in Hr as [Hr|Hr].
        -- rewrite find_by_id_nil in Hf. by destruct (Hf r Hr).
        -- by apply list_elem_of_singleton in Hr as ->.
    + destruct H as (_ & _ & _ & _ & Hq & _). rewrite Hq.
      by eapply pending_unprocessed_grows.
  - rewrite step_Get. destruct (get_endpoint_frame id w) as [->|(-> & -> & _)];
      [done|].
    eapply pending_unprocessed_grows; [exact Hp | apply served_table_grows].
  - destruct (step_Start_queued i w) as [->|(a & Hi & ->)]; [done|].
    simpl. intros k r Hk Hst Hr Hid.
    apply list_elem_of_lookup in Hk as [j Hj].
    destruct (lookup_alter_inv _ _ _ _ _ Hj) as [(-> & y & Hy & ->)|(_ & Hj')].
    + rewrite Hi in Hy. injection Hy as <-. simpl in Hid.
      eapply (Hp {| task_arg := a; task_state := Queued |}); try done.
      by eapply list_elem_of_lookup_2.
    + eapply Hp; try done. by eapply list_elem_of_lookup_2.
  - destruct (step_Wake_lookup i w) as [->|(a & wake & Hi & ->)]; [done|].
    assert (forall k, k ∈ tasks (set_task_state i Finished
                                   (process_transaction_resume a w).2) ->
                      task_state k <> Finished ->
                      k ∈ tasks w /\
                      Transaction.transaction_id (task_arg k)
                      <> Transaction.transaction_id a) as Hother.
    { intros k Hk Hst.
      assert (tasks (process_transaction_resume a w).2 = tasks w) as Hq
        by (by destruct (process_transaction_resume_cases a w) as [[_ E]|[_ E]];
            rewrite E).
      unfold set_task_state in Hk. simpl in Hk. rewrite Hq in Hk.
      apply list_elem_of_lookup in Hk as [j Hj].
      destruct (lookup_alter_inv _ _ _ _ _ Hj) as [(-> & y & Hy & ->)|(Hne & Hj')];
        [done|].
      split; [by eapply list_elem_of_lookup_2|]. intros Hid.
      pose proof (tasks_of_two (Transaction.transaction_id a) (tasks w) i j _ _
                    Hi Hj' ltac:(congruence) eq_refl Hid) as H2.
      specialize (Hone (Transaction.transaction_id a)). lia. }
    intros k r Hk Hst Hr Hid. destruct (Hother k Hk Hst) as [Hin Hne].
    destruct (process_transaction_resume_cases a w) as [[_ E]|[_ E]];
      rewrite E in Hr; simpl in Hr.
    + by eapply Hp.
    + unfold update_fields in Hr. apply list_elem_of_fmap in Hr as (r0 & -> & Hr0).
      destruct (decide (has_id (Transaction.transaction_id a) r0)) as [H0|H0].
      * simpl in Hid. unfold has_id in H0. congruence.
      * eapply (pending_unprocessed_grows _ _ _ Hp (served_table_grows w)); done.
  - by destruct (step_Tick d w) as [->| ->].
Qed.

Lemma step_keeps_processed_at e w j r p :
  pending_unprocessed (table w) (tasks w) ->
  table w !! j = Some r ->
  Transaction.processed_at r = Some p ->
  table (step e w).2 !! j = Some r.
Proof.
  intros Hp Hj Hpr.
  assert (forall e', (forall i, e' <> Wake i) -> table (step e' w).2 !! j = Some r) as Hg.
  { intros e' He'. destruct (step_grows e' w He') as (news & -> & _).
    by apply lookup_app_l_Some. }
  destruct e as [body|id|i|i|d]; try (apply Hg; discriminate).
  destruct (step_Wake_lookup i w) as [->|(a & wake & Hi & ->)]; [done|].
  destruct (process_transaction_resume_cases a w) as [[_ E]|[_ E]]; rewrite E; simpl;
    [done|].
  rewrite update_fields_lookup, (served_table_lookup _ _ _ Hj). simpl.
  destruct (decide (has_id (Transaction.transaction_id a) r)) as [Hid|Hid]; [|done].
  assert (Transaction.processed_at r = None) as Hnone; [|congruence].
  eapply (Hp {| task_arg := a; task_state := Sleeping wake |});
    [by eapply list_elem_of_lookup_2 | done | by eapply list_elem_of_lookup_2 | done].
Qed.

Lemma run_keeps_processed_at evs w j r p :
  known w ->
  (forall id, length (tasks_of id (tasks w)) <= 1) ->
  pending_unprocessed (table w) (tasks w) ->
  table w !! j = Some r ->
  Transaction.processed_at r = Some p ->
  table (run evs w).2 !! j = Some r.
Proof.
  revert w. induction evs as [|e evs IH]; intros w Hk Hone Hp Hj Hpr; [done|].
  rewrite run_cons. apply IH.
  - by apply step_known.
  - intros id. by apply step_tasks_of.
  - by apply step_pending_unprocessed.
  - by eapply step_keeps_processed_at.
  - done.
Qed.

Lemma run_pending_unprocessed evs w :
  known w ->
  (forall id, length (tasks_of id (tasks w)) <= 1) ->
  pending_unprocessed (table w) (tasks w) ->
  pending_unprocessed (table (run evs w).2) (tasks (run evs w).2).
Proof.
  revert w. induction evs as [|e evs IH]; intros w Hk Hone Hp; [done|].
  rewrite run_cons. apply IH.
  - by apply step_known.
  - intros id. by apply step_tasks_of.
  - by apply step_pending_unprocessed.
Qed.

(** X16: a record is finalized once.  In every state reached from start-up,
    under any store behaviour, a record that carries a [processed_at] is final:
    after any further deliveries, queries, task runs and clock ticks the very
    same row, with the same [processed_at] and every other field, is still at
    its place. *)
Theorem X16_processed_record_is_final (env0 : list Interference) (clock0 : Z)
    (evs evs' : list Event) (j : nat) (r : Transaction.t) (p : Timestamp) :
  table (run evs (boot env0 clock0)).2 !! j = Some r ->
  Transaction.processed_at r = Some p ->
  table (run evs' (run evs (boot env0 clock0)).2).2 !! j = Some r.
Proof.
  intros Hj Hp. eapply run_keeps_processed_at; [ | | | exact Hj | exact Hp].
  - apply run_known, boot_known.
  - intros id. apply run_tasks_of; [apply boot_known | simpl; lia].
  - apply run_pending_unprocessed; [apply boot_known | intros id; simpl; lia |].
    intros k r0 Hk. simpl in Hk. by apply not_elem_of_nil in Hk.
Qed.

Lemma X16_witness :
  table (run [Post (to_body conflicting_txn_test_001); Start 0; Tick 60; Wake 0]
           (run [Post (to_body txn_test_001); Start 0; Tick 45; Wake 0]
              (boot [] 1000)).2).2 !! 0
  = Some (apply_update "PROCESSED" 1045 (new_transaction txn_test_001 1000)).
Proof.
  apply (X16_processed_record_is_final [] 1000
           [Post (to_body txn_test_001); Start 0; Tick 45; Wake 0]
           [Post (to_body conflicting_txn_test_001); Start 0; Tick 60; Wake 0]
           0 _ 1045); reflexivity.
Defined.
